(** * DOW 30 tracker: the snapshot recorder

    A shallow embedding of the scheduled-fetch and persistence pipeline of
    [src/DOW30_Excel_Dashboard.py] (module [Orig]) and of its revision
    [src/DOW30_Excel_Dashboard_fixed.py] (module [Fixed]), with the
    properties the specification states about it.

    Conventions of the embedding.
    - A Python [float] price is a rational or NaN; [round(x, 2)] is
      rounding to the nearest hundredth, ties to even, on the exact value,
      and leaves NaN as it is.  Infinite prices are outside the model.
    - A [datetime] is a number of seconds ([Z]) since midnight of day 0; a
      [date] is a day number.
    - A worksheet is openpyxl's dictionary of cells keyed by (row, column),
      both 1-based.  A key that is missing reads as a blank cell.
    - The providers behind [yfinance] and [requests] are an oracle, a record
      of functions that answer or raise.
    - The folder of saved sheets is a map from dates to the sheets that can
      be read back, with the set of the dates whose file is on the disk
      but torn: [wb.save] writes onto the file itself, so a save that
      fails while it writes leaves a file that no longer opens. *)

From Stdlib Require Import ZArith QArith Qabs List Bool Lia String.
From stdpp Require Import base option gmap strings list.

Local Open Scope string_scope.
Local Open Scope Z_scope.
Local Open Scope list_scope.

(** ** Configuration *)

Definition TICKERS : list string :=
  [ "AAPL"; "AMGN"; "AXP"; "BA"; "CAT"; "CRM"; "CSCO"; "CVX"; "DIS"; "DOW";
    "GS"; "HD"; "HON"; "IBM"; "INTC"; "JNJ"; "JPM"; "KO"; "MCD"; "MMM";
    "MRK"; "MSFT"; "NKE"; "PG"; "TRV"; "UNH"; "V"; "VZ"; "WBA"; "WMT" ].

(** The dictionary [HOURS], in insertion order. *)
Definition HOURS : list (Z * string) :=
  [ (9, "9:31 AM"); (10, "10:00 AM"); (11, "11:00 AM"); (12, "12 NOON");
    (13, "1:00 PM"); (14, "2:00 PM"); (15, "3:00 PM"); (16, "4:00 PM") ].

Definition HOURS_values : list string := map snd HOURS.

(** ** Numbers *)

Definition Qltb (a b : Q) : bool := Qnum a * QDen b <? Qnum b * QDen a.

(** Nearest integer, ties to even. *)
Definition round_half_even (q : Q) : Z :=
  let n := Qnum q in
  let d := Z.pos (Qden q) in
  let f := n / d in
  let r := n mod d in
  if 2 * r <? d then f
  else if d <? 2 * r then f + 1
  else if Z.even f then f else f + 1.

(** [round(price, 2)] of a number. *)
Definition round2 (q : Q) : Q := Qred (round_half_even (q * 100) # 100).

Definition two_decimals (q : Q) : Prop := exists z : Z, (q == z # 100)%Q.

(** A [float]: a number, or NaN. *)
Inductive pyfloat : Type :=
| Fin (q : Q)
| NaN.

(** ** Cells and worksheets *)

(** What a cell of the sheet can hold: nothing, text, a number, or the
    [float] NaN. *)
Inductive value : Type :=
| VNone
| VStr (s : string)
| VNum (q : Q)
| VNaN.

(** [isinstance(v, (float, int))]. *)
Definition is_number (v : value) : bool :=
  match v with VNum _ | VNaN => true | _ => false end.

(** The (fill, font) pair of a cell: the default style, [up_fill] with
    [green], or [down_fill] with [red]. *)
Inductive marker : Type := Unmarked | Up | Down.

Record cell : Type := Cell { cvalue : value; cmark : marker }.

Definition blank : cell := Cell VNone Unmarked.

Abbreviation worksheet := (gmap (nat * nat) cell).

(** Reading a cell; a cell never touched is blank. *)
Definition ws_get (ws : worksheet) (r c : nat) : cell :=
  default blank (ws !! (r, c)).

(** openpyxl's [Worksheet.cell(row, column, value)]: the cell is created on
    first access, and its value is assigned only when [value] is not
    [None].  The style of the cell is not touched. *)
Definition ws_cell (ws : worksheet) (r c : nat) (v : value) : worksheet :=
  let cl := ws_get ws r c in
  <[(r, c) := match v with
              | VNone => cl
              | _ => Cell v (cmark cl)
              end]> ws.

(** [cell.fill, cell.font = ...] *)
Definition set_mark (ws : worksheet) (r c : nat) (m : marker) : worksheet :=
  <[(r, c) := Cell (cvalue (ws_get ws r c)) m]> ws.

(** [ws.append(row)] at row [r]: one cell per item, from column 1. *)
Fixpoint append_from (ws : worksheet) (r c : nat) (vs : list value) : worksheet :=
  match vs with
  | [] => ws
  | v :: vs' => append_from (<[(r, c) := Cell v Unmarked]> ws) r (S c) vs'
  end.

Definition ws_append (ws : worksheet) (r : nat) (vs : list value) : worksheet :=
  append_from ws r 1%nat vs.

Fixpoint append_tickers (ws : worksheet) (r : nat) (ts : list string) : worksheet :=
  match ts with
  | [] => ws
  | t :: ts' =>
      append_tickers
        (ws_append ws r (VStr t :: repeat VNone (length HOURS))) (S r) ts'
  end.

(** The sheet [ensure_workbook] creates: the header row, then a row per
    ticker with every price cell empty. *)
Definition new_sheet : worksheet :=
  append_tickers
    (ws_append ∅ 1%nat (VStr "Ticker" :: map VStr HOURS_values))
    2%nat TICKERS.

(** What the writer of openpyxl puts in the file for a cell: a NaN is
    written as an empty value, and the cell keeps its style. *)
Definition saved_cell (cl : cell) : cell :=
  match cvalue cl with
  | VNaN => Cell VNone (cmark cl)
  | _ => cl
  end.

(** The sheet that is read back from the file of [ws]. *)
Definition saved (ws : worksheet) : worksheet := saved_cell <$> ws.

(** ** The merge loop of [_fetch] *)

(** [list(HOURS.values()).index(label)], [None] for Python's ValueError. *)
Fixpoint index_of (label : string) (ls : list string) : option nat :=
  match ls with
  | [] => None
  | l :: ls' =>
      if String.eqb l label then Some 0%nat
      else option_map S (index_of label ls')
  end.

(** [round(price, 2) if isinstance(price, (float, int)) else None]: NaN is
    a [float], and its rounding is NaN. *)
Definition cell_value (price : option pyfloat) : value :=
  match price with
  | Some (Fin p) => VNum (round2 p)
  | Some NaN => VNaN
  | None => VNone
  end.

(** One turn of the loop, for row [r] and its [price].  A comparison with
    NaN is false either way. *)
Definition merge_row (col : nat) (ws : worksheet) (r : nat)
    (price : option pyfloat) : worksheet :=
  let val := cell_value price in
  let ws1 := ws_cell ws r col val in
  let ws2 := ws_cell ws1 r (col - 1) VNone in
  let prev := cvalue (ws_get ws2 r (col - 1)) in
  match prev, val with
  | VNum pv, VNum v =>
      if Qltb pv v then set_mark ws2 r col Up
      else if Qltb v pv then set_mark ws2 r col Down
      else ws2
  | _, _ => ws2
  end.

(** [for r, price in enumerate(prices, start=r0)]. *)
Fixpoint merge_rows (col : nat) (ws : worksheet) (r0 : nat)
    (prices : list (option pyfloat)) : worksheet :=
  match prices with
  | [] => ws
  | p :: ps => merge_rows col (merge_row col ws r0 p) (S r0) ps
  end.

Definition merge_prices (col : nat) (ws : worksheet)
    (prices : list (option pyfloat)) : worksheet :=
  merge_rows col ws 2%nat prices.

(** ** Time *)

Definition DAY : Z := 86400.

(** [date.today()] at the instant [t]. *)
Definition date_of (t : Z) : Z := t / DAY.

(** [now.time()], as seconds since midnight. *)
Definition time_of (t : Z) : Z := t mod DAY.

(** [now.hour] *)
Definition hour_of (t : Z) : Z := time_of t / 3600.

(** [datetime.combine(d, dtime(hour=h))] *)
Definition combine (d h : Z) : Z := d * DAY + h * 3600.

(** [timedelta(minutes=1)] *)
Definition MINUTE : Z := 60.

(** The bounds [start], [end] that [_get] passes to [history]. *)
Definition hist_window (hist_dt : Z) : Z * Z :=
  (hist_dt - MINUTE, hist_dt + MINUTE).

Definition window_width (win : Z * Z) : Z := snd win - fst win.

(** ** Exceptions, providers and the state of the process *)

Inductive exn : Type :=
| ProviderError (sym : string)
| KeyError
| IndexError
| ValueError (label : string)
| IOError
| BadZipFile.

Inductive result (A : Type) : Type :=
| Ok (a : A)
| Raise (e : exn).
Arguments Ok {A} a.
Arguments Raise {A} e.

(** The data sources.  [history] is [yf.Ticker(sym).history(start, end,
    interval="1m")] as its rows (timestamp, Close) in chronological order;
    [info_price] is [yf.Ticker(sym).info.get("regularMarketPrice")];
    [quote] is the JSON of the quote endpoint: [None] when the keys
    [quoteResponse] or [result] are missing, else for each entry of
    [result] its [regularMarketPrice]. *)
Record provider : Type := Provider {
  history : string -> Z -> Z -> result (list (Z * pyfloat));
  info_price : string -> result (option pyfloat);
  quote : string -> result (option (list (option pyfloat)))
}.

(** What the disk does with a write: it takes it; it refuses to open the
    file, which stays as it was; or it fails while the file is being
    written, which leaves the file torn. *)
Inductive disk : Type := DiskOk | DiskRefuses | DiskBreaks.

(** What one invocation finds around it: the clock, the data sources, the
    disk, and how far the thread pool runs ahead: the number of lookups
    that have started beyond the one whose exception is being collected. *)
Record world : Type := MkWorld {
  now : Z;
  prov : provider;
  disk_state : disk;
  run_ahead : nat
}.

(** A world with a disk that takes every write, or refuses every one, and
    a pool whose seven other workers are busy. *)
Definition World (t : Z) (p : provider) (ok : bool) : world :=
  MkWorld t p (if ok then DiskOk else DiskRefuses) 7.

Definition disk_ok (w : world) : bool :=
  match disk_state w with DiskOk => true | _ => false end.

Definition today (w : world) : Z := date_of (now w).

Inductive call : Type :=
| CHistory (sym : string) (start stop : Z)
| CInfo (sym : string)
| CQuote (sym : string).

(** The saved sheets by date, the dates whose file is torn, the requests
    sent so far, the tracebacks printed and the number of [updated]
    signals emitted. *)
Record state : Type := State {
  files : gmap Z worksheet;
  torn : gset Z;
  calls : list call;
  tracebacks : list exn;
  emitted : nat
}.

Definition init_state : state := State ∅ ∅ [] [] 0%nat.

(** State and exceptions: what a step did before it raised stays done. *)
Definition M (A : Type) : Type := state -> result A * state.

Definition ret {A} (a : A) : M A := fun st => (Ok a, st).

Definition bind {A B} (m : M A) (k : A -> M B) : M B :=
  fun st =>
    match m st with
    | (Ok a, st') => k a st'
    | (Raise e, st') => (Raise e, st')
    end.

Definition raise {A} (e : exn) : M A := fun st => (Raise e, st).

Definition try_except {A} (m : M A) (handler : exn -> M A) : M A :=
  fun st =>
    match m st with
    | (Ok a, st') => (Ok a, st')
    | (Raise e, st') => handler e st'
    end.

Declare Scope fetch_scope.
Delimit Scope fetch_scope with fetch.
Notation "x <- m ;; k" := (bind m (fun x => k))
  (at level 100, m at next level, right associativity) : fetch_scope.
Notation "m ;;; k" := (bind m (fun _ => k))
  (at level 100, right associativity) : fetch_scope.
Local Open Scope fetch_scope.

Definition of_result {A} (r : result A) : M A :=
  match r with Ok a => ret a | Raise e => raise e end.

Definition request {A} (c : call) (r : result A) : M A :=
  fun st =>
    (r, State (files st) (torn st) (calls st ++ [c]) (tracebacks st)
          (emitted st)).

Definition yf_history (w : world) (sym : string) (start stop : Z)
  : M (list (Z * pyfloat)) :=
  request (CHistory sym start stop) (history (prov w) sym start stop).

Definition yf_info (w : world) (sym : string) : M (option pyfloat) :=
  request (CInfo sym) (info_price (prov w) sym).

Definition requests_get (w : world) (sym : string)
  : M (option (list (option pyfloat))) :=
  request (CQuote sym) (quote (prov w) sym).

(** [os.path.exists(fpath)]: a torn file exists too. *)
Definition path_exists (fpath : Z) : M bool :=
  fun st =>
    (Ok (bool_decide (is_Some (files st !! fpath))
         || bool_decide (fpath ∈ torn st)), st).

(** [wb.save(fpath)]: the file is opened for writing, then written.  When
    the disk refuses, the file stays as it was; when it breaks, what the
    file held is lost and the file is left torn. *)
Definition wb_save (w : world) (fpath : Z) (ws : worksheet) : M unit :=
  fun st =>
    match disk_state w with
    | DiskOk =>
        (Ok tt,
         State (<[fpath := saved ws]> (files st)) (torn st ∖ {[fpath]})
           (calls st) (tracebacks st) (emitted st))
    | DiskRefuses => (Raise IOError, st)
    | DiskBreaks =>
        (Raise IOError,
         State (delete fpath (files st)) ({[fpath]} ∪ torn st)
           (calls st) (tracebacks st) (emitted st))
    end.

(** [load_workbook(fpath)]: a torn file does not open. *)
Definition load_workbook (fpath : Z) : M worksheet :=
  fun st =>
    if bool_decide (fpath ∈ torn st) then (Raise BadZipFile, st)
    else match files st !! fpath with
         | Some ws => (Ok ws, st)
         | None => (Raise IOError, st)
         end.

(** [self.updated.emit()] *)
Definition emit : M unit :=
  fun st =>
    (Ok tt,
     State (files st) (torn st) (calls st) (tracebacks st) (S (emitted st))).

(** [traceback.print_exc()] *)
Definition print_exc (e : exn) : M unit :=
  fun st =>
    (Ok tt,
     State (files st) (torn st) (calls st) (tracebacks st ++ [e])
       (emitted st)).

Definition ensure_workbook (w : world) : M (Z * worksheet) :=
  let fpath := today w in
  present <- path_exists fpath;;
  (if negb present then wb_save w fpath new_sheet else ret tt);;;
  ws <- load_workbook fpath;;
  ret (fpath, ws).

(** A lookup run in a worker: its exception is kept with its future. *)
Definition attempt {A} (m : M A) : M (result A) :=
  fun st => let '(r, st') := m st in (Ok r, st').

(** The [n] first lookups of [l], which had started, run to their end;
    nobody collects what they answer. *)
Fixpoint run_started {A B} (f : A -> M B) (n : nat) (l : list A) : M unit :=
  match n, l with
  | S n', x :: xs => attempt (f x);;; run_started f n' xs
  | _, _ => ret tt
  end.

(** [list(ThreadPoolExecutor(8).map(f, l))]: the results are collected in
    the order of [l]; collecting re-raises the first exception met, and
    the pool then cancels the lookups that have not started, while those
    that have run to their end.  The interleaving of the workers is not
    modelled: the requests are recorded in the order of [l]. *)
Fixpoint pool_map {A B} (w : world) (f : A -> M B) (l : list A) : M (list B) :=
  match l with
  | [] => ret []
  | x :: xs =>
      r <- attempt (f x);;
      match r with
      | Ok b => bs <- pool_map w f xs;; ret (b :: bs)
      | Raise e => run_started f (run_ahead w) xs;;; raise e
      end
  end.

(** [float(p) if p else None]: zero is falsy, NaN is not. *)
Definition float_if_truthy (p : option pyfloat) : option pyfloat :=
  match p with
  | Some (Fin x) => if Qeq_bool x 0 then None else Some (Fin x)
  | Some NaN => Some NaN
  | None => None
  end.

(** [df["Close"].iloc[-1]], when [df] is not empty. *)
Definition last_close (rows : list (Z * pyfloat)) : option pyfloat :=
  snd <$> last rows.

(** [next((h for h, lbl in HOURS.items() if lbl == label), None)] *)
Fixpoint hour_of_label (label : string) (hs : list (Z * string)) : option Z :=
  match hs with
  | [] => None
  | (h, lbl) :: hs' =>
      if String.eqb lbl label then Some h else hour_of_label label hs'
  end.

(** ** The [schedule] library *)

(** A job registered with [schedule.every().day.at("HH:00").do(f)]. *)
Record job (F : Type) : Type := Job {
  at_time : Z;
  next_run : Z;
  job_func : F
}.
Arguments Job {F} at_time next_run job_func.
Arguments at_time {F} j.
Arguments next_run {F} j.
Arguments job_func {F} j.

(** The next instant after [t] whose time of day is [at_sec]: today if
    that time is still ahead, else tomorrow. *)
Definition next_occurrence (t at_sec : Z) : Z :=
  if time_of t <? at_sec
  then date_of t * DAY + at_sec
  else (date_of t + 1) * DAY + at_sec.

(** [schedule.every().day.at(f"{hour:02}:00").do(f)], called at [t]. *)
Definition every_day_at {F} (t hour : Z) (f : F) : job F :=
  Job (hour * 3600) (next_occurrence t (hour * 3600)) f.

Definition should_run {F} (t : Z) (j : job F) : bool := next_run j <=? t.

(** [sorted(runnable_jobs)]: by [next_run], jobs that tie keeping the order
    of registration. *)
Fixpoint insert_job {F} (j : job F) (l : list (job F)) : list (job F) :=
  match l with
  | [] => [j]
  | k :: l' =>
      if next_run j <=? next_run k then j :: k :: l'
      else k :: insert_job j l'
  end.

Definition sort_jobs {F} (l : list (job F)) : list (job F) :=
  foldr insert_job [] l.

(** The functions [run_pending] calls at [t], in the order it calls them. *)
Definition pending {F} (t : Z) (js : list (job F)) : list F :=
  map job_func (sort_jobs (filter (fun j => should_run t j = true) js)).

(** A job that ran is due again at the next occurrence of its time. *)
Definition reschedule {F} (t : Z) (js : list (job F)) : list (job F) :=
  map (fun j =>
         if should_run t j
         then Job (at_time j) (next_occurrence t (at_time j)) (job_func j)
         else j) js.

Section Scheduler.
Context {F : Type}.
(** What calling a registered function does. *)
Variable run_func : world -> F -> M unit.

Fixpoint run_all (w : world) (fs : list F) : M unit :=
  match fs with
  | [] => ret tt
  | f :: fs' => run_func w f;;; run_all w fs'
  end.

(** [schedule.run_pending()]: an exception of a job is not caught here. *)
Definition run_pending (w : world) (js : list (job F)) : M (list (job F)) :=
  run_all w (pending (now w) js);;;
  ret (reschedule (now w) js).

(** [while True: schedule.run_pending(); time.sleep(1)], for the polls
    in [polls]: one world per turn of the loop.  A [Raise] ends the
    loop and its thread. *)
Fixpoint run_loop (polls : list world) (js : list (job F))
  : M (list (job F)) :=
  match polls with
  | [] => ret js
  | w :: polls' => js' <- run_pending w js;; run_loop polls' js'
  end.
End Scheduler.

(** [for x in l: s = f(s, x)] *)
Fixpoint for_each {A S} (f : S -> A -> M S) (l : list A) (s : S) : M S :=
  match l with
  | [] => ret s
  | x :: l' => s' <- f s x;; for_each f l' s'
  end.

(** ** Start-up takes time *)

(** The places of [__init__] where it looks at the clock, or calls
    [_fetch]: the registration of the midnight job, the reading of [now],
    and for each slot the beginning of its turn of the first loop, its
    back-fill, the registration of its historical job and, in the second
    loop, that of its live job. *)
Inductive point : Type :=
| AtMidnightJob
| AtNow
| AtTurn (slot : Z * string)
| AtBackfill (slot : Z * string)
| AtHistoryJob (slot : Z * string)
| AtLiveJob (slot : Z * string).

(** What [__init__] finds around it at each of them. *)
Definition timeline : Type := point -> world.

(** A start-up that takes no time. *)
Definition at_once (w : world) : timeline := fun _ => w.

Coercion at_once : world >-> timeline.

(** ** src/DOW30_Excel_Dashboard.py *)

Module Orig.

Definition live_quote (w : world) (sym : string) : M (option pyfloat) :=
  p <- yf_info w sym;;
  p <- match p with
       | Some _ => ret p
       | None =>
           j <- requests_get w sym;;
           match j with
           | None => raise KeyError
           | Some [] => raise IndexError
           | Some (entry :: _) => ret entry
           end
       end;;
  ret (float_if_truthy p).

Definition _get (w : world) (use_history : bool) (hist_dt : option Z)
    (sym : string) : M (option pyfloat) :=
  match (if use_history then hist_dt else None) with
  | Some dt =>
      let '(start, stop) := hist_window dt in
      df <- yf_history w sym start stop;;
      match last_close df with
      | Some c => ret (Some c)
      | None => live_quote w sym
      end
  | None => live_quote w sym
  end.

(** The body of the [try] of [_fetch]. *)
Definition _fetch_body (w : world) (label : string) (use_history : bool)
    (hist_dt : option Z) : M unit :=
  prices <- pool_map w (_get w use_history hist_dt) TICKERS;;
  wb <- ensure_workbook w;;
  let '(fpath, ws) := wb in
  col <- match index_of label HOURS_values with
         | Some i => ret (i + 2)%nat
         | None => raise (ValueError label)
         end;;
  wb_save w fpath (merge_prices col ws prices);;;
  emit.

Definition _fetch (w : world) (label : string) (use_history : bool)
    (hist_dt : option Z) : M unit :=
  try_except (_fetch_body w label use_history hist_dt) print_exc.

(** The functions handed to [schedule]: [ensure_workbook],
    [lambda l=lbl, d=hist_dt: self._fetch(l, True, d)] and
    [lambda l=lbl: self._fetch(l)]. *)
Inductive job_fn : Type :=
| DoEnsure
| DoHistory (l : string) (d : Z)
| DoLive (l : string).

Definition run_func (w : world) (f : job_fn) : M unit :=
  match f with
  | DoEnsure => ensure_workbook w;;; ret tt
  | DoHistory l d => _fetch w l true (Some d)
  | DoLive l => _fetch w l false None
  end.

(** One turn of the first loop of [__init__]: the test is on [now], read
    before the loop; the fetch blocks; [.do] reads the clock after it. *)
Definition backfill_then_schedule (tl : timeline) (js : list (job job_fn))
    (slot : Z * string) : M (list (job job_fn)) :=
  let '(h, lbl) := slot in
  let hist_dt := combine (date_of (now (tl AtNow))) h in
  (if hist_dt <=? now (tl AtNow)
   then _fetch (tl (AtBackfill (h, lbl))) lbl true (Some hist_dt)
   else ret tt);;;
  ret (js ++ [every_day_at (now (tl (AtHistoryJob (h, lbl)))) h
                (DoHistory lbl hist_dt)]).

Definition schedule_live (tl : timeline) (js : list (job job_fn))
    (slot : Z * string) : list (job job_fn) :=
  js ++ [every_day_at (now (tl (AtLiveJob slot))) (fst slot)
           (DoLive (snd slot))].

(** [Fetcher.__init__], up to the start of the scheduler thread. *)
Definition __init__ (tl : timeline) : M (list (job job_fn)) :=
  let js0 := [every_day_at (now (tl AtMidnightJob)) 0 DoEnsure] in
  js1 <- for_each (backfill_then_schedule tl) HOURS js0;;
  ret (fold_left (schedule_live tl) HOURS js1).

(** The midnight job, the historical trigger of the slot [lbl], and its
    live trigger. *)
Definition is_ensure (f : job_fn) : bool :=
  match f with DoEnsure => true | _ => false end.

Definition is_history (lbl : string) (f : job_fn) : bool :=
  match f with DoHistory l _ => String.eqb l lbl | _ => false end.

Definition is_live (lbl : string) (f : job_fn) : bool :=
  match f with DoLive l => String.eqb l lbl | _ => false end.

Definition _run := run_loop run_func.

End Orig.

(** ** src/DOW30_Excel_Dashboard_fixed.py *)

Module Fixed.

Definition _get (w : world) (use_history : bool) (hist_dt : option Z)
    (sym : string) : M (option pyfloat) :=
  match (if use_history then hist_dt else None) with
  | Some dt =>
      let '(start, stop) := hist_window dt in
      df <- yf_history w sym start stop;;
      match last_close df with
      | Some c => ret (Some c)
      | None => ret None
      end
  | None =>
      info_price <- yf_info w sym;;
      match info_price with
      | Some p => ret (Some p)
      | None =>
          try_except
            (data <- requests_get w sym;;
             match data with
             | Some (p :: _) => ret p
             | _ => ret None
             end)
            (fun _ => ret None)
      end
  end.

(** The body of the [try] of [_fetch]. *)
Definition _fetch_body (w : world) (label : string) (use_history : bool)
    (hist_dt : option Z) : M unit :=
  hist_dt <- match use_history, hist_dt with
             | true, None =>
                 match hour_of_label label HOURS with
                 | None => raise (ValueError label)
                 | Some hour => ret (Some (combine (today w) hour))
                 end
             | _, _ => ret hist_dt
             end;;
  prices <- pool_map w (_get w use_history hist_dt) TICKERS;;
  wb <- ensure_workbook w;;
  let '(fpath, ws) := wb in
  col <- match index_of label HOURS_values with
         | Some i => ret (i + 2)%nat
         | None => raise (ValueError label)
         end;;
  wb_save w fpath (merge_prices col ws prices);;;
  emit.

Definition _fetch (w : world) (label : string) (use_history : bool)
    (hist_dt : option Z) : M unit :=
  try_except (_fetch_body w label use_history hist_dt) print_exc.

(** The functions handed to [schedule]: [ensure_workbook], the lambda
    that computes [hist_dt] from [date.today()] when it runs, and
    [lambda l=label: self._fetch(l)]. *)
Inductive job_fn : Type :=
| DoEnsure
| DoHistory (l : string) (h : Z)
| DoLive (l : string).

Definition run_func (w : world) (f : job_fn) : M unit :=
  match f with
  | DoEnsure => ensure_workbook w;;; ret tt
  | DoHistory l h => _fetch w l true (Some (combine (today w) h))
  | DoLive l => _fetch w l false None
  end.

(** One turn of the first loop of [__init__]: [date.today()] is read in
    the turn, the test is on [now], read before the loop; the fetch
    blocks; [.do] reads the clock after it. *)
Definition backfill_then_schedule (tl : timeline) (js : list (job job_fn))
    (slot : Z * string) : M (list (job job_fn)) :=
  let '(hour, label) := slot in
  let hist_dt_today := combine (today (tl (AtTurn (hour, label)))) hour in
  (if hist_dt_today <=? now (tl AtNow)
   then _fetch (tl (AtBackfill (hour, label))) label true (Some hist_dt_today)
   else ret tt);;;
  ret (js ++ [every_day_at (now (tl (AtHistoryJob (hour, label)))) hour
                (DoHistory label hour)]).

Definition schedule_live (tl : timeline) (js : list (job job_fn))
    (slot : Z * string) : list (job job_fn) :=
  js ++ [every_day_at (now (tl (AtLiveJob slot))) (fst slot)
           (DoLive (snd slot))].

(** [Fetcher.__init__], up to the start of the scheduler thread. *)
Definition __init__ (tl : timeline) : M (list (job job_fn)) :=
  let js0 := [every_day_at (now (tl AtMidnightJob)) 0 DoEnsure] in
  js1 <- for_each (backfill_then_schedule tl) HOURS js0;;
  ret (fold_left (schedule_live tl) HOURS js1).

(** The midnight job, the historical trigger of the slot [lbl], and its
    live trigger. *)
Definition is_ensure (f : job_fn) : bool :=
  match f with DoEnsure => true | _ => false end.

Definition is_history (lbl : string) (f : job_fn) : bool :=
  match f with DoHistory l _ => String.eqb l lbl | _ => false end.

Definition is_live (lbl : string) (f : job_fn) : bool :=
  match f with DoLive l => String.eqb l lbl | _ => false end.

Definition _run_scheduler := run_loop run_func.

End Fixed.

(** ** Notions used to state the properties *)

(** The record of date [d] as [ensure_workbook] hands it out: the saved
    sheet, or a new one when none is saved yet. *)
Definition record_of (fs : gmap Z worksheet) (d : Z) : worksheet :=
  default new_sheet (fs !! d).

(** Column of the sheet for the slot of index [k] in [HOURS]. *)
Definition slot_col (k : nat) : nat := (k + 2)%nat.

(** Row of the sheet for the ticker of index [i] in [TICKERS]. *)
Definition ticker_row (i : nat) : nat := (i + 2)%nat.

(** A price cell as the specification wants it: empty, or a number of two
    decimals that is not negative. *)
Definition price_cell_ok (v : value) : Prop :=
  match v with
  | VNone => True
  | VNum q => two_decimals q /\ (0 <= q)%Q
  | VStr _ => False
  | VNaN => False
  end.


(** The sheets the files hold: a new sheet, or what was saved of a merge,
    into a sheet of a file, of prices whose numbers satisfy [P]. *)
Inductive merged_sheet (P : Q -> Prop) : worksheet -> Prop :=
| merged_new : merged_sheet P new_sheet
| merged_step (ws : worksheet) (k : nat) (prices : list (option pyfloat)) :
    merged_sheet P ws ->
    (k < length HOURS)%nat ->
    Forall (fun price => forall q : Q, price = Some (Fin q) -> P q) prices ->
    merged_sheet P (saved (merge_prices (slot_col k) ws prices)).


(** A store that is as it was, but for the creation by [ensure_workbook]
    of today's sheet, still new. *)
Definition store_kept (w : world) (fs fs' : gmap Z worksheet) : Prop :=
  fs' = fs \/ (fs !! today w = None /\ fs' = <[today w := new_sheet]> fs).

(** What a save that breaks leaves: today's file is torn, and the sheet
    it held is lost. *)
Definition file_torn (w : world) (st st' : state) : Prop :=
  files st' = delete (today w) (files st)
  /\ torn st' = {[today w]} ∪ torn st.

(** What a fetch that raises [e] after it gathered the prices has done to
    the folder.  Nothing but the creation of today's sheet, when the disk
    refused the save, the label is unknown or today's file is torn; or,
    when the disk broke during a save, the loss of today's file. *)
Definition save_failure (w : world) (label : string) (e : exn)
    (st st' : state) : Prop :=
  (store_kept w (files st) (files st') /\ torn st' = torn st
   /\ (e = IOError /\ disk_state w = DiskRefuses
       \/ e = ValueError label /\ index_of label HOURS_values = None
       \/ e = BadZipFile /\ (today w ∈ torn st)))
  \/ (e = IOError /\ disk_state w = DiskBreaks /\ file_torn w st st').

(** The sheets of a file hold no NaN. *)
Definition no_nan (ws : worksheet) : Prop :=
  forall r c, cvalue (ws_get ws r c) <> VNaN.

(** What a fetch whose body raised [e] leaves: one traceback more and no
    signal; the folder as it was, but for a new sheet for today, or, when
    a save broke, today's file torn; in any case the records of the other
    days as they were, and unless a save broke every record as it was. *)
Definition failed_fetch (w : world) (e : exn) (st st' : state) : Prop :=
  tracebacks st' = tracebacks st ++ [e]
  /\ emitted st' = emitted st
  /\ (store_kept w (files st) (files st') /\ torn st' = torn st
      \/ e = IOError /\ disk_state w = DiskBreaks /\ file_torn w st st')
  /\ (forall d, d <> today w ->
        record_of (files st') d = record_of (files st) d
        /\ (d ∈ torn st' <-> d ∈ torn st))
  /\ (disk_state w <> DiskBreaks ->
      torn st' = torn st
      /\ forall d, record_of (files st') d = record_of (files st) d).

(** A store all of whose sheets were produced by merges of prices whose
    numbers satisfy [P]. *)
Definition store_merged (P : Q -> Prop) (fs : gmap Z worksheet) : Prop :=
  forall d ws, fs !! d = Some ws -> merged_sheet P ws.

(** A provider that never quotes a negative price. *)
Definition provider_nonneg (p : provider) : Prop :=
  (forall sym a b rows t (c : Q),
      history p sym a b = Ok rows -> In (t, Fin c) rows -> (0 <= c)%Q)
  /\ (forall sym (q : Q), info_price p sym = Ok (Some (Fin q)) -> (0 <= q)%Q)
  /\ (forall sym l (q : Q),
        quote p sym = Ok (Some l) -> In (Some (Fin q)) l -> (0 <= q)%Q).



(** The states the process can be in, for worlds that satisfy [W]:
    starting from an empty folder, any sequence of calls of
    [ensure_workbook] and of [_fetch], of either file, with any
    arguments. *)
Inductive reachable (W : world -> Prop) : state -> Prop :=
| reach_start : reachable W init_state
| reach_ensure (w : world) (st : state) :
    W w -> reachable W st -> reachable W (snd (ensure_workbook w st))
| reach_orig (w : world) (label : string) (use_history : bool)
    (hist_dt : option Z) (st : state) :
    W w -> reachable W st ->
    reachable W (snd (Orig._fetch w label use_history hist_dt st))
| reach_fixed (w : world) (label : string) (use_history : bool)
    (hist_dt : option Z) (st : state) :
    W w -> reachable W st ->
    reachable W (snd (Fixed._fetch w label use_history hist_dt st)).

(** A step that sends requests and does nothing else. *)
Definition adds_calls (st st' : state) : Prop :=
  files st' = files st
  /\ torn st' = torn st
  /\ tracebacks st' = tracebacks st
  /\ emitted st' = emitted st
  /\ exists cs, calls st' = calls st ++ cs.

(** A computation whose outcome is [r] whatever the state, and which only
    sends requests. *)
Definition answers {A} (m : M A) (r : result A) : Prop :=
  forall st, fst (m st) = r /\ adds_calls st (snd (m st)).

(** What a lookup answers: its outcome does not depend on the state. *)
Definition outcome {A} (m : M A) : result A := fst (m init_state).

(** Check of one cell of a new sheet: no style; empty where a price goes,
    text in the header row and in the ticker column. *)
Definition new_sheet_check (kc : nat * nat * cell) : bool :=
  let '((r, c), cl) := kc in
  match cmark cl with Unmarked => true | _ => false end
  && (if (2 <=? r)%nat && (2 <=? c)%nat
      then match cvalue cl with VNone => true | _ => false end
      else match cvalue cl with VStr _ => true | _ => false end).

(** What collecting the results in order gives: all of them, or the first
    exception. *)
Fixpoint collect {B} (rs : list (result B)) : result (list B) :=
  match rs with
  | [] => Ok []
  | Ok b :: rs' =>
      match collect rs' with
      | Ok bs => Ok (b :: bs)
      | Raise e => Raise e
      end
  | Raise e :: _ => Raise e
  end.

(** The prices a fetch of [src/DOW30_Excel_Dashboard.py] gathers: the
    outcome of each lookup, in the order of [TICKERS]. *)
Definition orig_prices (w : world) (use_history : bool) (hist_dt : option Z)
  : result (list (option pyfloat)) :=
  collect (map (fun sym => outcome (Orig._get w use_history hist_dt sym))
             TICKERS).

(** The same for [src/DOW30_Excel_Dashboard_fixed.py]. *)
Definition fixed_prices (w : world) (use_history : bool) (hist_dt : option Z)
  : result (list (option pyfloat)) :=
  collect (map (fun sym => outcome (Fixed._get w use_history hist_dt sym))
             TICKERS).

(** The timestamp the fixed [_fetch] hands to its lookups: the one given,
    or the slot's hour today when history is asked for without one. *)
Definition fixed_hist_dt (w : world) (label : string) (use_history : bool)
    (hist_dt : option Z) : result (option Z) :=
  match use_history, hist_dt with
  | true, None =>
      match hour_of_label label HOURS with
      | None => Raise (ValueError label)
      | Some hour => Ok (Some (combine (today w) hour))
      end
  | _, _ => Ok hist_dt
  end.

(** What the fixed [_fetch] gathers: the prices for the timestamp it
    resolved, or the exception of the resolution. *)
Definition fixed_gathered (w : world) (label : string) (use_history : bool)
    (hist_dt : option Z) : result (list (option pyfloat)) :=
  match fixed_hist_dt w label use_history hist_dt with
  | Ok dt => fixed_prices w use_history dt
  | Raise e => Raise e
  end.

(** The two ways a fetch that gathered [gathered] takes the process from
    [st] to [st']: it stores what is saved of the merged sheet and
    notifies, or it prints one traceback. *)
Definition fetch_effect (w : world) (label : string)
    (gathered : result (list (option pyfloat))) (st st' : state) : Prop :=
  (exists prices k,
      gathered = Ok prices
      /\ length prices = length TICKERS
      /\ index_of label HOURS_values = Some k
      /\ disk_ok w = true
      /\ (today w ∉ torn st)
      /\ files st'
         = <[today w := saved (merge_prices (slot_col k)
                                 (record_of (files st) (today w)) prices)]>
             (files st)
      /\ torn st' = torn st
      /\ tracebacks st' = tracebacks st
      /\ emitted st' = S (emitted st))
  \/ (exists e,
        tracebacks st' = tracebacks st ++ [e]
        /\ emitted st' = emitted st
        /\ (gathered = Raise e /\ files st' = files st /\ torn st' = torn st
            \/ (exists prices, gathered = Ok prices)
               /\ save_failure w label e st st')).

(** *** The scheduler *)

(** A call of [_fetch]: the world it runs in and its arguments. *)
Record fetch_call : Type := FetchCall {
  fc_world : world;
  fc_label : string;
  fc_history : bool;
  fc_dt : option Z
}.

(** The calls of [cs], one after the other. *)
Fixpoint run_fetches (fetch : world -> string -> bool -> option Z -> M unit)
    (cs : list fetch_call) : M unit :=
  match cs with
  | [] => ret tt
  | c :: cs' =>
      fetch (fc_world c) (fc_label c) (fc_history c) (fc_dt c);;;
      run_fetches fetch cs'
  end.



(** The slots the specification wants fetched at start-up: those whose
    hour is at most the current hour. *)
Definition spec_backfill_slots (t : Z) : list (Z * string) :=
  List.filter (fun slot => fst slot <=? hour_of t) HOURS.


(** The day does not change while [__init__] runs its first loop. *)
Definition same_day (tl : timeline) : Prop :=
  forall slot, today (tl (AtTurn slot)) = today (tl AtNow).

(** The jobs [__init__] of [src/DOW30_Excel_Dashboard.py] has registered
    after a start-up along [tl]. *)
Definition orig_registered (tl : timeline) : list (job Orig.job_fn) :=
  [every_day_at (now (tl AtMidnightJob)) 0 Orig.DoEnsure]
  ++ map (fun slot =>
            every_day_at (now (tl (AtHistoryJob slot))) (fst slot)
              (Orig.DoHistory (snd slot)
                 (combine (today (tl AtNow)) (fst slot))))
       HOURS
  ++ map (fun slot =>
            every_day_at (now (tl (AtLiveJob slot))) (fst slot)
              (Orig.DoLive (snd slot)))
       HOURS.

(** The same for [src/DOW30_Excel_Dashboard_fixed.py]. *)
Definition fixed_registered (tl : timeline) : list (job Fixed.job_fn) :=
  [every_day_at (now (tl AtMidnightJob)) 0 Fixed.DoEnsure]
  ++ map (fun slot =>
            every_day_at (now (tl (AtHistoryJob slot))) (fst slot)
              (Fixed.DoHistory (snd slot) (fst slot)))
       HOURS
  ++ map (fun slot =>
            every_day_at (now (tl (AtLiveJob slot))) (fst slot)
              (Fixed.DoLive (snd slot)))
       HOURS.

(** The jobs registered by a start-up that took no time, at [t]. *)
Definition orig_jobs (t : Z) : list (job Orig.job_fn) :=
  [every_day_at t 0 Orig.DoEnsure]
  ++ map (fun slot =>
            every_day_at t (fst slot)
              (Orig.DoHistory (snd slot) (combine (date_of t) (fst slot))))
       HOURS
  ++ map (fun slot => every_day_at t (fst slot) (Orig.DoLive (snd slot)))
       HOURS.

Definition fixed_jobs (t : Z) : list (job Fixed.job_fn) :=
  [every_day_at t 0 Fixed.DoEnsure]
  ++ map (fun slot =>
            every_day_at t (fst slot) (Fixed.DoHistory (snd slot) (fst slot)))
       HOURS
  ++ map (fun slot => every_day_at t (fst slot) (Fixed.DoLive (snd slot)))
       HOURS.



(** When the first job whose function satisfies [p] is to run next. *)
Fixpoint next_run_of {F} (p : F -> bool) (js : list (job F)) : option Z :=
  match js with
  | [] => None
  | j :: js' => if p (job_func j) then Some (next_run j) else next_run_of p js'
  end.



(** The call of [_fetch] that a registered function makes in [w]; the
    midnight job makes none. *)
Definition orig_fetch_of (w : world) (f : Orig.job_fn) : option fetch_call :=
  match f with
  | Orig.DoEnsure => None
  | Orig.DoHistory l d => Some (FetchCall w l true (Some d))
  | Orig.DoLive l => Some (FetchCall w l false None)
  end.

Definition fixed_fetch_of (w : world) (f : Fixed.job_fn) : option fetch_call :=
  match f with
  | Fixed.DoEnsure => None
  | Fixed.DoHistory l h => Some (FetchCall w l true (Some (combine (today w) h)))
  | Fixed.DoLive l => Some (FetchCall w l false None)
  end.

(** The calls of [_fetch] of the poll in [w], in order. *)
Definition orig_poll_calls (w : world) (js : list (job Orig.job_fn))
  : list fetch_call :=
  omap (orig_fetch_of w) (pending (now w) js).

Definition fixed_poll_calls (w : world) (js : list (job Fixed.job_fn))
  : list fetch_call :=
  omap (fixed_fetch_of w) (pending (now w) js).

(** The same for a sequence of polls. *)
Fixpoint orig_loop_calls (polls : list world) (js : list (job Orig.job_fn))
  : list fetch_call :=
  match polls with
  | [] => []
  | w :: polls' =>
      orig_poll_calls w js ++ orig_loop_calls polls' (reschedule (now w) js)
  end.

Fixpoint fixed_loop_calls (polls : list world) (js : list (job Fixed.job_fn))
  : list fetch_call :=
  match polls with
  | [] => []
  | w :: polls' =>
      fixed_poll_calls w js ++ fixed_loop_calls polls' (reschedule (now w) js)
  end.

(** The job list after the polls. *)
Fixpoint loop_jobs {F} (polls : list world) (js : list (job F)) : list (job F) :=
  match polls with
  | [] => js
  | w :: polls' => loop_jobs polls' (reschedule (now w) js)
  end.

(** None of the polls finds a job that satisfies [p] due. *)
Fixpoint never_due {F} (p : F -> bool) (polls : list world) (js : list (job F))
  : bool :=
  match polls with
  | [] => true
  | w :: polls' =>
      forallb (fun f => negb (p f)) (pending (now w) js)
      && never_due p polls' (reschedule (now w) js)
  end.

(** *** Requests *)

(** The request for the history window of [sym] around [dt]. *)
Definition history_request (dt : Z) (sym : string) : call :=
  CHistory sym (dt - MINUTE) (dt + MINUTE).

(** The requests of a historical fetch for [dt]: one per ticker. *)
Definition backfill_requests (dt : Z) : list call :=
  map (history_request dt) TICKERS.

(** [history] answers, with or without rows, for every ticker. *)
Definition history_answers (w : world) (dt : Z) : Prop :=
  forall sym, In sym TICKERS ->
    exists df, history (prov w) sym (dt - MINUTE) (dt + MINUTE) = Ok df.

(** [before x y l]: somewhere in [l], [x] stands ahead of a [y]. *)
Inductive before {A} (x y : A) : list A -> Prop :=
| before_here (l : list A) : In y l -> before x y (x :: l)
| before_later (a : A) (l : list A) : before x y l -> before x y (a :: l).

(** The times of day of the registered jobs are times of day. *)
Definition at_time_ok {F} (j : job F) : Prop := 0 <= at_time j < DAY.

(** ** Sample data *)

(** AAPL at 100.00 in the first slot, then at 101.00 in the second. *)
Definition sheet_100_101 : worksheet :=
  merge_prices (slot_col 1)
    (merge_prices (slot_col 0) new_sheet [Some (Fin (100 # 1))])
    [Some (Fin (101 # 1))].

(** A provider that has nothing for any symbol. *)
Definition absent_provider : provider :=
  Provider (fun _ _ _ => Ok []) (fun _ => Ok None) (fun _ => Ok (Some [None])).

(** Ten o'clock on day 0, nothing on offer, the disk in order. *)
Definition w_absent : world := World (combine 0 10) absent_provider true.

(** A store whose record of day 0 has AAPL at 100.00 in the first slot. *)
Definition st_aapl_100 : state :=
  State {[ 0 := merge_prices (slot_col 0) new_sheet [Some (Fin (100 # 1))] ]}
    ∅ [] [] 0%nat.

(** A live provider that quotes 150.00 for every symbol but AAPL, for
    which [info] has no price and the quote endpoint fails. *)
Definition one_failing_provider : provider :=
  Provider (fun _ _ _ => Ok [])
    (fun sym => if String.eqb sym "AAPL" then Ok None else Ok (Some (Fin (150 # 1))))
    (fun sym => Raise (ProviderError sym)).

Definition w_one_failing : world :=
  World (combine 0 10) one_failing_provider true.

(** A provider serving one-minute bars: [history] answers with the bars
    whose timestamp is in [start, stop). *)
Definition bars_provider (bars : string -> list (Z * pyfloat)) : provider :=
  Provider
    (fun sym start stop =>
       Ok (List.filter (fun bar => (start <=? fst bar) && (fst bar <? stop))
             (bars sym)))
    (fun _ => Ok (Some (Fin (1 # 1))))
    (fun _ => Ok None).

(** AAPL has a single bar, the one of 9:59 on day 0. *)
Definition w_bar_0959 : world :=
  World (combine 0 10)
    (bars_provider (fun sym =>
       if String.eqb sym "AAPL" then [(combine 0 10 - 60, Fin (995 # 10))]
       else []))
    true.


(** Ten o'clock on day 0, nothing on offer, and a disk that fails while
    it writes. *)
Definition w_breaking : world :=
  MkWorld (combine 0 10) absent_provider DiskBreaks 7.

(** The windows asked of [history] for [sym], in the order of asking. *)
Fixpoint history_windows (sym : string) (cs : list call) : list (Z * Z) :=
  match cs with
  | [] => []
  | CHistory s start stop :: cs' =>
      if String.eqb s sym then (start, stop) :: history_windows sym cs'
      else history_windows sym cs'
  | _ :: cs' => history_windows sym cs'
  end.

(** A process started at 08:00 on day 0. *)
Definition w_start_0800 : world := World (combine 0 8) absent_provider true.

(** Polls on the hour from 09:00 to 16:00 of day 0, and at midnight. *)
Definition polls_day0 : list world :=
  map (fun t => World t absent_provider true)
    ([combine 0 9; combine 0 10; combine 0 11; combine 0 12; combine 0 13;
      combine 0 14; combine 0 15; combine 0 16; combine 1 0]).

(** The poll of 09:00 on day 1. *)
Definition w_day1_0900 : world := World (combine 1 9) absent_provider true.

(** The job list a run ended with; none if the loop was ended. *)
Definition jobs_of {F} (r : result (list (job F)) * state) : list (job F) :=
  match fst r with
  | Ok js => js
  | Raise _ => []
  end.

(** A process started at 13:15 on day 0. *)
Definition w_start_1315 : world :=
  World (combine 0 13 + 15 * 60) absent_provider true.

(** A start-up that reads [now] two seconds before ten on day 0, whose one
    back-fill, of the nine o'clock slot, takes five seconds: the jobs are
    registered three seconds past ten. *)
Definition tl_across_ten : timeline :=
  fun p =>
    let early := World (combine 0 10 - 2) absent_provider true in
    let late := World (combine 0 10 + 3) absent_provider true in
    match p with
    | AtMidnightJob | AtNow | AtBackfill _ => early
    | AtTurn slot => if fst slot <=? 9 then early else late
    | AtHistoryJob _ | AtLiveJob _ => late
    end.

(** The store after a live fetch of the first slot by the fixed file, all
    symbols but AAPL at 150.00. *)
Definition st_first_slot : state :=
  snd (Fixed._fetch w_one_failing "9:31 AM" false None init_state).

(** A provider that quotes -1.00 for every symbol. *)
Definition negative_provider : provider :=
  Provider (fun _ _ _ => Ok []) (fun _ => Ok (Some (Fin (-1 # 1))))
    (fun _ => Ok None).

Definition w_negative : world := World (combine 0 10) negative_provider true.

(** A history that raises for every symbol, live quotes at 150.00. *)
Definition no_history_provider : provider :=
  Provider (fun sym _ _ => Raise (ProviderError sym))
    (fun _ => Ok (Some (Fin (150 # 1)))) (fun _ => Ok None).

(** The poll of 09:00 on day 0 with that provider. *)
Definition w_no_history_0900 : world :=
  World (combine 0 9) no_history_provider true.

(** * Properties *)

(** ** Numbers *)

Lemma Qltb_lt (a b : Q) : Qltb a b = true <-> (a < b)%Q.
Proof. unfold Qltb, Qlt. apply Z.ltb_lt. Qed.

Lemma Qltb_irrefl_eq (a b : Q) : (a == b)%Q -> Qltb a b = false.
Proof.
  intros H. destruct (Qltb a b) eqn:E; [|reflexivity].
  apply Qltb_lt in E. rewrite H in E. exfalso. exact (Qlt_irrefl _ E).
Qed.

Lemma round_half_even_nonneg (q : Q) : (0 <= q)%Q -> 0 <= round_half_even q.
Proof.
  intros H. unfold Qle in H. simpl in H. rewrite Z.mul_1_r in H.
  unfold round_half_even.
  assert (Hd : 0 < Z.pos (Qden q)) by lia.
  pose proof (Z.div_pos (Qnum q) (Z.pos (Qden q)) H Hd) as Hf.
  repeat match goal with |- context [if ?b then _ else _] => destruct b end; lia.
Qed.

(** The integer chosen is at most one half away. *)
Lemma round_half_even_close (q : Q) :
  let z := round_half_even q in
  2 * Z.abs (Qnum q - z * Z.pos (Qden q)) <= Z.pos (Qden q).
Proof.
  cbv zeta. unfold round_half_even.
  set (n := Qnum q). set (d := Z.pos (Qden q)).
  assert (Hd : 0 < d) by (unfold d; lia).
  pose proof (Z.div_mod n d ltac:(lia)) as Hdm.
  pose proof (Z.mod_pos_bound n d Hd) as Hb.
  destruct (2 * (n mod d) <? d) eqn:E1.
  - apply Z.ltb_lt in E1. nia.
  - apply Z.ltb_ge in E1. destruct (d <? 2 * (n mod d)) eqn:E2.
    + apply Z.ltb_lt in E2. nia.
    + apply Z.ltb_ge in E2. destruct (Z.even (n / d)); nia.
Qed.

Lemma round2_two_decimals (q : Q) : two_decimals (round2 q).
Proof.
  exists (round_half_even (q * 100)). unfold round2. apply Qred_correct.
Qed.

Lemma round2_nonneg (q : Q) : (0 <= q)%Q -> (0 <= round2 q)%Q.
Proof.
  intros H. unfold round2. rewrite Qred_correct.
  assert (H100 : (0 <= q * 100)%Q).
  { apply Qmult_le_0_compat; [exact H | discriminate]. }
  apply round_half_even_nonneg in H100.
  unfold Qle. simpl. lia.
Qed.

(** [round2 q] is within half a hundredth of [q]. *)
Lemma round2_close (q : Q) : (Qabs (round2 q - q) <= 1 # 200)%Q.
Proof.
  unfold round2. rewrite Qred_correct.
  pose proof (round_half_even_close (q * 100)) as H. cbv zeta in H.
  set (z := round_half_even (q * 100)) in *.
  destruct q as [n d]. simpl in H.
  apply Qabs_Qle_condition. unfold Qle, Qminus, Qplus, Qopp. simpl.
  split; nia.
Qed.

(** ** Cells *)

Lemma ws_get_insert (ws : worksheet) (r c r' c' : nat) (x : cell) :
  ws_get (<[(r, c) := x]> ws) r' c'
  = if decide ((r, c) = (r', c')) then x else ws_get ws r' c'.
Proof.
  unfold ws_get. rewrite lookup_insert. case_decide; reflexivity.
Qed.

Lemma ws_get_ws_cell (ws : worksheet) (r c r' c' : nat) (v : value) :
  ws_get (ws_cell ws r c v) r' c'
  = if decide ((r, c) = (r', c'))
    then match v with
         | VNone => ws_get ws r c
         | _ => Cell v (cmark (ws_get ws r c))
         end
    else ws_get ws r' c'.
Proof. unfold ws_cell. apply ws_get_insert. Qed.

Lemma ws_get_set_mark (ws : worksheet) (r c r' c' : nat) (m : marker) :
  ws_get (set_mark ws r c m) r' c'
  = if decide ((r, c) = (r', c'))
    then Cell (cvalue (ws_get ws r c)) m
    else ws_get ws r' c'.
Proof. unfold set_mark. apply ws_get_insert. Qed.

Lemma ws_cell_none_get (ws : worksheet) (r c r' c' : nat) :
  ws_get (ws_cell ws r c VNone) r' c' = ws_get ws r' c'.
Proof.
  rewrite ws_get_ws_cell. case_decide as E; [|reflexivity].
  injection E as -> ->. reflexivity.
Qed.

(** The file holds the cells of the sheet, a NaN read back as nothing. *)
Lemma ws_get_saved (ws : worksheet) (r c : nat) :
  ws_get (saved ws) r c = saved_cell (ws_get ws r c).
Proof.
  unfold ws_get, saved. rewrite lookup_fmap.
  destruct (ws !! (r, c)); reflexivity.
Qed.

Lemma cmark_saved_cell (cl : cell) : cmark (saved_cell cl) = cmark cl.
Proof. unfold saved_cell. destruct (cvalue cl); reflexivity. Qed.

Lemma cvalue_saved_cell (cl : cell) :
  cvalue (saved_cell cl)
  = match cvalue cl with VNaN => VNone | v => v end.
Proof. unfold saved_cell. destruct (cvalue cl) eqn:E; simpl; congruence. Qed.

Lemma saved_cell_id (cl : cell) : cvalue cl <> VNaN -> saved_cell cl = cl.
Proof. unfold saved_cell. destruct (cvalue cl); congruence. Qed.

(** A turn of the loop touches the content of one cell only. *)
Lemma merge_row_other (col : nat) (ws : worksheet) (r : nat)
    (price : option pyfloat) (r' c' : nat) :
  (r, col) <> (r', c') ->
  ws_get (merge_row col ws r price) r' c' = ws_get ws r' c'.
Proof.
  intros Hne. unfold merge_row.
  assert (Hbase :
    ws_get (ws_cell (ws_cell ws r col (cell_value price)) r (col - 1) VNone)
      r' c' = ws_get ws r' c').
  { rewrite ws_cell_none_get, ws_get_ws_cell. case_decide; congruence. }
  repeat match goal with
         | |- context [match ?x with _ => _ end] => destruct x
         end;
    rewrite ?ws_get_set_mark; try case_decide; congruence.
Qed.

Lemma merge_row_value (col : nat) (ws : worksheet) (r : nat)
    (price : option pyfloat) :
  cvalue (ws_get (merge_row col ws r price) r col)
  = match price with
    | Some (Fin p) => VNum (round2 p)
    | Some NaN => VNaN
    | None => cvalue (ws_get ws r col)
    end.
Proof.
  unfold merge_row.
  assert (Hbase :
    cvalue (ws_get
      (ws_cell (ws_cell ws r col (cell_value price)) r (col - 1) VNone)
      r col)
    = match price with
      | Some (Fin p) => VNum (round2 p)
      | Some NaN => VNaN
      | None => cvalue (ws_get ws r col)
      end).
  { rewrite ws_cell_none_get, ws_get_ws_cell.
    case_decide; [|congruence]. destruct price as [[p|]|]; reflexivity. }
  rewrite <- Hbase.
  repeat match goal with
         | |- context [match ?x with VNone => _ | _ => _ end] => destruct x
         | |- context [if ?x then _ else _] => destruct x
         end;
    rewrite ?ws_get_set_mark; try case_decide; try congruence;
    reflexivity.
Qed.

(** The style after a turn of the loop, from the value written, the value
    to the left and the style before. *)
Lemma merge_row_mark (k : nat) (ws : worksheet) (r : nat) (price : option pyfloat) :
  cmark (ws_get (merge_row (k + 2) ws r price) r (k + 2))
  = match cvalue (ws_get ws r (k + 1)), cell_value price with
    | VNum pv, VNum v =>
        if Qltb pv v then Up
        else if Qltb v pv then Down
        else cmark (ws_get ws r (k + 2))
    | _, _ => cmark (ws_get ws r (k + 2))
    end.
Proof.
  unfold merge_row.
  replace (k + 2 - 1)%nat with (k + 1)%nat by lia.
  assert (Hprev :
    cvalue (ws_get
      (ws_cell (ws_cell ws r (k + 2) (cell_value price)) r (k + 1) VNone)
      r (k + 1)) = cvalue (ws_get ws r (k + 1))).
  { rewrite ws_cell_none_get, ws_get_ws_cell.
    case_decide as E; [injection E; lia | reflexivity]. }
  assert (Hold :
    cmark (ws_get
      (ws_cell (ws_cell ws r (k + 2) (cell_value price)) r (k + 1) VNone)
      r (k + 2)) = cmark (ws_get ws r (k + 2))).
  { rewrite ws_cell_none_get, ws_get_ws_cell.
    case_decide; [|congruence]. destruct price as [[p|]|]; reflexivity. }
  rewrite Hprev.
  destruct (cvalue (ws_get ws r (k + 1))) as [| s | pv |]; try exact Hold.
  destruct (cell_value price) as [| s | v |]; try exact Hold.
  destruct (Qltb pv v).
  { rewrite ws_get_set_mark. case_decide; [reflexivity | congruence]. }
  destruct (Qltb v pv).
  { rewrite ws_get_set_mark. case_decide; [reflexivity | congruence]. }
  exact Hold.
Qed.

Lemma cell_eq (a b : cell) : cvalue a = cvalue b -> cmark a = cmark b -> a = b.
Proof. destruct a, b; simpl; congruence. Qed.

(** A turn of the loop reads its own row only. *)
Lemma merge_row_local (k : nat) (ws1 ws2 : worksheet) (r : nat)
    (price : option pyfloat) :
  (forall c, ws_get ws1 r c = ws_get ws2 r c) ->
  forall c, ws_get (merge_row (k + 2) ws1 r price) r c
            = ws_get (merge_row (k + 2) ws2 r price) r c.
Proof.
  intros H c. destruct (decide (c = (k + 2)%nat)) as [->|Hc].
  - apply cell_eq.
    + rewrite !merge_row_value, H. reflexivity.
    + rewrite !merge_row_mark, !H. reflexivity.
  - rewrite !merge_row_other by congruence. apply H.
Qed.

(** The loop, cell by cell: row [r] is changed by its own turn, when it
    has one. *)
Lemma merge_rows_get (k : nat) (prices : list (option pyfloat)) :
  forall (ws : worksheet) (r0 r c : nat),
    ws_get (merge_rows (k + 2) ws r0 prices) r c
    = match (if decide (r0 <= r)%nat then prices !! (r - r0)%nat else None) with
      | Some price => ws_get (merge_row (k + 2) ws r price) r c
      | None => ws_get ws r c
      end.
Proof.
  induction prices as [|p ps IH]; intros ws r0 r c; simpl.
  - case_decide; reflexivity.
  - rewrite IH. destruct (decide (r0 <= r)%nat) as [Hle|Hgt].
    + destruct (decide (r = r0)) as [->|Hne].
      * rewrite decide_False by lia. rewrite Nat.sub_diag. reflexivity.
      * rewrite decide_True by lia.
        replace (r - r0)%nat with (S (r - S r0)) by lia. simpl.
        destruct (ps !! (r - S r0)%nat) as [price|].
        -- apply merge_row_local. intros c'.
           apply merge_row_other. intros E. injection E. lia.
        -- apply merge_row_other. intros E. injection E. lia.
    + rewrite decide_False by lia.
      apply merge_row_other. intros E. injection E. lia.
Qed.

Lemma merge_prices_get (k : nat) (ws : worksheet) (prices : list (option pyfloat))
    (i c : nat) :
  ws_get (merge_prices (k + 2) ws prices) (i + 2) c
  = match prices !! i with
    | Some price => ws_get (merge_row (k + 2) ws (i + 2) price) (i + 2) c
    | None => ws_get ws (i + 2) c
    end.
Proof.
  unfold merge_prices. rewrite merge_rows_get.
  rewrite decide_True by lia.
  replace (i + 2 - 2)%nat with i by lia. reflexivity.
Qed.

(** Rows above the first ticker and columns other than the slot's are not
    touched. *)
Lemma merge_prices_other_col (k : nat) (ws : worksheet)
    (prices : list (option pyfloat)) (r c : nat) :
  c <> (k + 2)%nat ->
  ws_get (merge_prices (k + 2) ws prices) r c = ws_get ws r c.
Proof.
  intros Hc. unfold merge_prices. rewrite merge_rows_get.
  destruct (if decide (2 <= r)%nat then prices !! (r - 2)%nat else None);
    [|reflexivity].
  apply merge_row_other. congruence.
Qed.


(** ** The sheet [ensure_workbook] creates *)

Lemma new_sheet_checked :
  forallb new_sheet_check (map_to_list new_sheet) = true.
Proof. vm_compute. reflexivity. Qed.

Lemma new_sheet_lookup (r c : nat) (cl : cell) :
  new_sheet !! (r, c) = Some cl -> new_sheet_check ((r, c), cl) = true.
Proof.
  intros H. apply elem_of_map_to_list in H.
  pose proof new_sheet_checked as Hall.
  rewrite forallb_forall in Hall. apply Hall.
  apply list_elem_of_In. exact H.
Qed.

Lemma new_sheet_check_spec (r c : nat) (cl : cell) :
  new_sheet_check ((r, c), cl) = true ->
  cmark cl = Unmarked
  /\ ((2 <= r)%nat -> (2 <= c)%nat -> cvalue cl = VNone)
  /\ (c = 1%nat -> is_number (cvalue cl) = false).
Proof.
  unfold new_sheet_check. intros H. apply andb_true_iff in H as [H1 H2].
  split; [destruct (cmark cl); congruence|]. split.
  - intros Hr Hc. apply Nat.leb_le in Hr, Hc. rewrite Hr, Hc in H2.
    cbn [andb] in H2. destruct (cvalue cl); congruence.
  - intros ->. change (2 <=? 1)%nat with false in H2.
    rewrite andb_false_r in H2. destruct (cvalue cl); simpl; congruence.
Qed.

Lemma new_sheet_cell (r c : nat) :
  cmark (ws_get new_sheet r c) = Unmarked
  /\ ((2 <= r)%nat -> (2 <= c)%nat -> cvalue (ws_get new_sheet r c) = VNone)
  /\ (c = 1%nat -> is_number (cvalue (ws_get new_sheet r c)) = false).
Proof.
  unfold ws_get. destruct (new_sheet !! (r, c)) as [cl|] eqn:E.
  - apply new_sheet_lookup in E. apply new_sheet_check_spec in E. exact E.
  - simpl. auto.
Qed.

(** ** Up and down markers *)

(** C6 (as amended).  In a merge into the column of slot [k], the marker of
    a ticker's cell follows from the value written and the value stored in
    the column to the left: up when both are numbers and the new one is
    greater, down when both are numbers and the new one is smaller.  When
    the two are equal, or one of them is missing, the merge sets no marker
    and the cell keeps the one it had; a cell that had none is then
    up, or down, exactly in the two cases above. *)
Theorem marker_after_merge (ws : worksheet) (k i : nat)
    (prices : list (option pyfloat)) (price : option pyfloat) :
  prices !! i = Some price ->
  let written := cell_value price in
  let left := cvalue (ws_get ws (ticker_row i) (slot_col k - 1)) in
  let old := cmark (ws_get ws (ticker_row i) (slot_col k)) in
  let new :=
    cmark (ws_get (merge_prices (slot_col k) ws prices)
             (ticker_row i) (slot_col k)) in
  (forall v pv, written = VNum v -> left = VNum pv -> (pv < v)%Q -> new = Up)
  /\ (forall v pv,
        written = VNum v -> left = VNum pv -> (v < pv)%Q -> new = Down)
  /\ (forall v pv,
        written = VNum v -> left = VNum pv -> (v == pv)%Q -> new = old)
  /\ (is_number written = false \/ is_number left = false -> new = old)
  /\ (old = Unmarked ->
      (new = Up <->
         exists v pv, written = VNum v /\ left = VNum pv /\ (pv < v)%Q)
      /\ (new = Down <->
            exists v pv, written = VNum v /\ left = VNum pv /\ (v < pv)%Q)).
Proof.
  intros Hi. cbv zeta. unfold slot_col, ticker_row.
  rewrite merge_prices_get, Hi, merge_row_mark.
  replace (k + 2 - 1)%nat with (k + 1)%nat by lia.
  set (left := cvalue (ws_get ws (i + 2) (k + 1))).
  set (old := cmark (ws_get ws (i + 2) (k + 2))).
  assert (Hup : forall v pv, (pv < v)%Q ->
            (if Qltb pv v then Up else if Qltb v pv then Down else old) = Up).
  { intros v pv H. apply Qltb_lt in H. rewrite H. reflexivity. }
  assert (Hdown : forall v pv, (v < pv)%Q ->
            (if Qltb pv v then Up else if Qltb v pv then Down else old) = Down).
  { intros v pv H.
    assert (Hn : Qltb pv v = false).
    { destruct (Qltb pv v) eqn:E; [|reflexivity].
      apply Qltb_lt in E. exfalso.
      exact (Qlt_irrefl _ (Qlt_trans _ _ _ H E)). }
    apply Qltb_lt in H. rewrite Hn, H. reflexivity. }
  assert (Heq : forall v pv, (v == pv)%Q ->
            (if Qltb pv v then Up else if Qltb v pv then Down else old) = old).
  { intros v pv H. rewrite (Qltb_irrefl_eq v pv H).
    symmetry in H. rewrite (Qltb_irrefl_eq pv v H). reflexivity. }
  repeat split.
  - intros v pv -> -> H. auto.
  - intros v pv -> -> H. auto.
  - intros v pv -> -> H. auto.
  - intros [H|H].
    + destruct left; try reflexivity.
      destruct (cell_value price); try reflexivity. discriminate.
    + destruct left; try reflexivity. discriminate.
  - destruct left as [| s | pv |]; try (rewrite H; discriminate).
    destruct (cell_value price) as [| s | v |]; try (rewrite H; discriminate).
    destruct (Qltb pv v) eqn:E1.
    + intros _. exists v, pv. apply Qltb_lt in E1. auto.
    + destruct (Qltb v pv); [discriminate | rewrite H; discriminate].
  - intros (v & pv & -> & -> & Hlt). auto.
  - destruct left as [| s | pv |]; try (rewrite H; discriminate).
    destruct (cell_value price) as [| s | v |]; try (rewrite H; discriminate).
    destruct (Qltb pv v) eqn:E1; [discriminate|].
    destruct (Qltb v pv) eqn:E2.
    + intros _. exists v, pv. apply Qltb_lt in E2. auto.
    + rewrite H. discriminate.
  - intros (v & pv & -> & -> & Hlt). auto.
Qed.

Lemma marker_after_merge_witness :
  cmark (ws_get sheet_100_101 (ticker_row 0) (slot_col 1)) = Up.
Proof.
  pose proof (marker_after_merge
                (merge_prices (slot_col 0) new_sheet [Some (Fin (100 # 1))])
                1 0 [Some (Fin (101 # 1))] (Some (Fin (101 # 1))) eq_refl) as H.
  cbv zeta in H. destruct H as (Hup & _).
  apply (Hup (round2 (101 # 1)) (100 # 1)).
  - reflexivity.
  - vm_compute. reflexivity.
  - vm_compute. reflexivity.
Defined.

(** C6, counterexample.  AAPL holds 100.00 in the first slot and 101.00,
    marked up, in the second.  A second fetch of the second slot brings
    100.00: the two values are now equal, and the cell is still marked up.
    The same happens when the second fetch brings nothing. *)
Lemma marker_kept_when_equal :
  let ws := merge_prices (slot_col 1) sheet_100_101 [Some (Fin (100 # 1))] in
  let ws' := merge_prices (slot_col 1) sheet_100_101 [None] in
  cvalue (ws_get ws (ticker_row 0) (slot_col 1)) = VNum (100 # 1)
  /\ cvalue (ws_get ws (ticker_row 0) (slot_col 0)) = VNum (100 # 1)
  /\ cmark (ws_get ws (ticker_row 0) (slot_col 1)) <> Unmarked
  /\ cmark (ws_get ws' (ticker_row 0) (slot_col 1)) <> Unmarked.
Proof. vm_compute. repeat split; discriminate. Qed.

(** ** The first slot *)

(** With no number to the left, a merge changes no style. *)
Lemma merge_first_col_marks (ws : worksheet) (prices : list (option pyfloat)) :
  (forall r, is_number (cvalue (ws_get ws r 1)) = false) ->
  forall r c,
    cmark (ws_get (merge_prices (slot_col 0) ws prices) r c)
    = cmark (ws_get ws r c).
Proof.
  intros Hleft r c. unfold slot_col.
  destruct (decide (c = (0 + 2)%nat)) as [->|Hc];
    [|rewrite merge_prices_other_col by exact Hc; reflexivity].
  unfold merge_prices. rewrite merge_rows_get.
  destruct (if decide (2 <= r)%nat then prices !! (r - 2)%nat else None)
    as [price|]; [|reflexivity].
  rewrite merge_row_mark. simpl.
  specialize (Hleft r). destruct (cvalue (ws_get ws r 1)); try reflexivity.
  discriminate.
Qed.

Lemma merged_sheet_left_column (P : Q -> Prop) (ws : worksheet) :
  merged_sheet P ws ->
  forall r, is_number (cvalue (ws_get ws r 1)) = false.
Proof.
  induction 1 as [|ws k prices _ IH _ _]; intros r.
  - apply new_sheet_cell. reflexivity.
  - rewrite ws_get_saved. unfold slot_col.
    rewrite merge_prices_other_col by lia.
    rewrite saved_cell_id; [apply IH|].
    intros E. specialize (IH r). rewrite E in IH. discriminate.
Qed.

Lemma merged_sheet_first_slot_unmarked (P : Q -> Prop) (ws : worksheet) :
  merged_sheet P ws -> forall r, cmark (ws_get ws r 2) = Unmarked.
Proof.
  induction 1 as [|ws k prices Hws IH _ _]; intros r.
  - apply new_sheet_cell.
  - rewrite ws_get_saved, cmark_saved_cell. destruct k as [|k].
    + rewrite merge_first_col_marks; [apply IH|].
      exact (merged_sheet_left_column P ws Hws).
    + unfold slot_col. rewrite merge_prices_other_col by lia. apply IH.
Qed.

(** On a sheet produced by merges, a merge into the first slot column
    gives no cell a marker, whatever the prices: the value to the left is
    the ticker, not a number. *)
Lemma sheet_first_slot_never_marked (P : Q -> Prop) (ws : worksheet) :
  merged_sheet P ws ->
  (forall prices r c,
      cmark (ws_get (merge_prices (slot_col 0) ws prices) r c)
      = cmark (ws_get ws r c))
  /\ (forall prices r,
        cmark (ws_get (merge_prices (slot_col 0) ws prices) r (slot_col 0))
        = Unmarked)
  /\ (forall r, cmark (ws_get ws r (slot_col 0)) = Unmarked).
Proof.
  intros Hws.
  pose proof (merged_sheet_left_column P ws Hws) as Hleft.
  pose proof (merged_sheet_first_slot_unmarked P ws Hws) as Hun.
  split; [|split].
  - intros prices r c. apply merge_first_col_marks. exact Hleft.
  - intros prices r. rewrite merge_first_col_marks by exact Hleft. apply Hun.
  - exact Hun.
Qed.

(** ** Stored values *)

Lemma merge_row_value_ok (k : nat) (ws : worksheet) (r : nat)
    (price : option pyfloat) :
  price_cell_ok (cvalue (ws_get ws r (k + 2))) ->
  (forall q : Q, price = Some (Fin q) -> (0 <= q)%Q) ->
  price_cell_ok
    (cvalue (saved_cell (ws_get (merge_row (k + 2) ws r price) r (k + 2)))).
Proof.
  intros Hold Hp. rewrite cvalue_saved_cell, merge_row_value.
  destruct price as [[q|]|].
  - simpl. split; [apply round2_two_decimals | apply round2_nonneg; auto].
  - exact I.
  - destruct (cvalue (ws_get ws r (k + 2))); simpl in *; tauto.
Qed.

Lemma saved_cell_ok (cl : cell) :
  price_cell_ok (cvalue cl) -> price_cell_ok (cvalue (saved_cell cl)).
Proof. rewrite cvalue_saved_cell. destruct (cvalue cl); simpl; tauto. Qed.

Lemma merged_sheet_prices_ok (ws : worksheet) :
  merged_sheet (fun q => (0 <= q)%Q) ws ->
  forall r c, (2 <= r)%nat -> (2 <= c)%nat ->
    price_cell_ok (cvalue (ws_get ws r c)).
Proof.
  induction 1 as [|ws k prices _ IH _ Hprices]; intros r c Hr Hc.
  - destruct (new_sheet_cell r c) as (_ & Hblank & _).
    rewrite Hblank by assumption. exact I.
  - unfold slot_col. rewrite ws_get_saved.
    destruct (decide (c = (k + 2)%nat)) as [->|Hne];
      [|rewrite merge_prices_other_col by exact Hne; apply saved_cell_ok; auto].
    replace r with ((r - 2) + 2)%nat by lia.
    rewrite merge_prices_get.
    destruct (prices !! (r - 2)%nat) as [price|] eqn:E.
    + apply merge_row_value_ok; [apply IH; lia|].
      rewrite Forall_forall in Hprices. apply Hprices.
      eapply list_elem_of_lookup_2. exact E.
    + apply saved_cell_ok. apply IH; lia.
Qed.

(** On a sheet produced from prices that are not negative, each price
    cell is empty or holds a number of two decimals that is not negative;
    a merge writes the price rounded to two decimals, and for an absent
    price it writes nothing. *)
Lemma sheet_values_rounded (ws : worksheet) :
  merged_sheet (fun q => (0 <= q)%Q) ws ->
  (forall r c, (2 <= r)%nat -> (2 <= c)%nat ->
      price_cell_ok (cvalue (ws_get ws r c)))
  /\ (forall k prices i q,
        prices !! i = Some (Some (Fin q)) ->
        cvalue (ws_get (merge_prices (slot_col k) ws prices)
                  (ticker_row i) (slot_col k)) = VNum (round2 q)
        /\ (Qabs (round2 q - q) <= 1 # 200)%Q)
  /\ (forall k prices i,
        prices !! i = Some None ->
        cvalue (ws_get (merge_prices (slot_col k) ws prices)
                  (ticker_row i) (slot_col k))
        = cvalue (ws_get ws (ticker_row i) (slot_col k))).
Proof.
  intros Hws. split; [exact (merged_sheet_prices_ok ws Hws)|]. split.
  - intros k prices i q Hi. unfold slot_col, ticker_row.
    rewrite merge_prices_get, Hi, merge_row_value.
    split; [reflexivity | apply round2_close].
  - intros k prices i Hi. unfold slot_col, ticker_row.
    rewrite merge_prices_get, Hi, merge_row_value. reflexivity.
Qed.

(** ** Lookups *)

Lemma adds_calls_refl (st : state) : adds_calls st st.
Proof.
  unfold adds_calls. repeat split. exists []. symmetry. apply app_nil_r.
Qed.

Lemma adds_calls_trans (st1 st2 st3 : state) :
  adds_calls st1 st2 -> adds_calls st2 st3 -> adds_calls st1 st3.
Proof.
  intros (Hf & Hb & Ht & He & cs & Hc) (Hf' & Hb' & Ht' & He' & cs' & Hc').
  unfold adds_calls. repeat split; try congruence.
  exists (cs ++ cs'). rewrite Hc', Hc. symmetry. apply app_assoc.
Qed.

Lemma answers_ret {A} (a : A) : answers (ret a) (Ok a).
Proof. intros st. split; [reflexivity | apply adds_calls_refl]. Qed.

Lemma answers_raise {A} (e : exn) : answers (@raise A e) (Raise e).
Proof. intros st. split; [reflexivity | apply adds_calls_refl]. Qed.

Lemma answers_request {A} (c : call) (r : result A) : answers (request c r) r.
Proof.
  intros st. split; [reflexivity|]. unfold adds_calls. simpl.
  repeat split. exists [c]. reflexivity.
Qed.

Lemma answers_bind {A B} (m : M A) (k : A -> M B) (a : A) (r : result B) :
  answers m (Ok a) -> answers (k a) r -> answers (bind m k) r.
Proof.
  intros Hm Hk st. unfold bind. destruct (Hm st) as [Hr Hs].
  destruct (m st) as [ra st1]. simpl in *. subst ra.
  destruct (Hk st1) as [Hr' Hs']. split; [exact Hr'|].
  eapply adds_calls_trans; eassumption.
Qed.

Lemma answers_bind_raise {A B} (m : M A) (k : A -> M B) (e : exn) :
  answers m (Raise e) -> answers (bind m k) (Raise e).
Proof.
  intros Hm st. unfold bind. destruct (Hm st) as [Hr Hs].
  destruct (m st) as [ra st1]. simpl in *. subst ra. simpl. auto.
Qed.

Lemma answers_try_ok {A} (m : M A) (h : exn -> M A) (a : A) :
  answers m (Ok a) -> answers (try_except m h) (Ok a).
Proof.
  intros Hm st. unfold try_except. destruct (Hm st) as [Hr Hs].
  destruct (m st) as [ra st1]. simpl in *. subst ra. simpl. auto.
Qed.

Lemma answers_try_raise {A} (m : M A) (h : exn -> M A) (e : exn)
    (r : result A) :
  answers m (Raise e) -> answers (h e) r -> answers (try_except m h) r.
Proof.
  intros Hm Hh st. unfold try_except. destruct (Hm st) as [Hr Hs].
  destruct (m st) as [ra st1]. simpl in *. subst ra.
  destruct (Hh st1) as [Hr' Hs']. split; [exact Hr'|].
  eapply adds_calls_trans; eassumption.
Qed.

(** What a computation answers is its outcome. *)
Lemma answers_outcome {A} (m : M A) (r : result A) :
  answers m r -> r = outcome m.
Proof. intros H. unfold outcome. symmetry. apply H. Qed.

Lemma answers_attempt {A} (m : M A) (r : result A) :
  answers m r -> answers (attempt m) (Ok r).
Proof.
  intros Hm st. unfold attempt. destruct (Hm st) as [Hr Hs].
  destruct (m st) as [ra st1]. simpl in *. subst ra. auto.
Qed.

Lemma answers_run_started {A B} (f : A -> M B) (n : nat) (l : list A) :
  (forall x, answers (f x) (outcome (f x))) ->
  answers (run_started f n l) (Ok tt).
Proof.
  intros Hf. revert l.
  induction n as [|n IH]; intros [|x xs]; simpl; try apply answers_ret.
  eapply answers_bind; [apply answers_attempt, Hf|]. apply IH.
Qed.

(** The pool answers with the prices in the order of the symbols, or with
    the first exception in that order. *)
Lemma answers_pool_map {A B} (w : world) (f : A -> M B) (l : list A) :
  (forall x, answers (f x) (outcome (f x))) ->
  answers (pool_map w f l) (collect (map (fun x => outcome (f x)) l)).
Proof.
  intros Hf. induction l as [|x xs IH]; simpl.
  - apply answers_ret.
  - eapply answers_bind; [apply answers_attempt, Hf|].
    destruct (outcome (f x)) as [b|e].
    + destruct (collect (map (fun x => outcome (f x)) xs)) as [bs|e].
      * eapply answers_bind; [exact IH|]. apply answers_ret.
      * apply answers_bind_raise. exact IH.
    + eapply answers_bind; [apply answers_run_started, Hf|].
      apply answers_raise.
Qed.

Lemma orig_live_quote_answers (w : world) (sym : string) :
  exists r, answers (Orig.live_quote w sym) r.
Proof.
  unfold Orig.live_quote, yf_info, requests_get.
  destruct (info_price (prov w) sym) as [[p|]|e] eqn:Ei.
  - eexists. eapply answers_bind; [apply answers_request|].
    eapply answers_bind; apply answers_ret.
  - destruct (quote (prov w) sym) as [[[|entry l]|]|e] eqn:Eq.
    + eexists. eapply answers_bind; [apply answers_request|].
      eapply answers_bind_raise. eapply answers_bind; [apply answers_request|].
      apply answers_raise.
    + eexists. eapply answers_bind; [apply answers_request|].
      eapply answers_bind;
        [eapply answers_bind; [apply answers_request | apply answers_ret]|].
      apply answers_ret.
    + eexists. eapply answers_bind; [apply answers_request|].
      eapply answers_bind_raise. eapply answers_bind; [apply answers_request|].
      apply answers_raise.
    + eexists. eapply answers_bind; [apply answers_request|].
      eapply answers_bind_raise. eapply answers_bind_raise.
      apply answers_request.
  - eexists. eapply answers_bind_raise. apply answers_request.
Qed.

Lemma orig_get_answers (w : world) (use_history : bool) (hist_dt : option Z)
    (sym : string) :
  answers (Orig._get w use_history hist_dt sym)
    (outcome (Orig._get w use_history hist_dt sym)).
Proof.
  assert (H : exists r, answers (Orig._get w use_history hist_dt sym) r).
  { unfold Orig._get.
    destruct (if use_history then hist_dt else None) as [dt|];
      [|apply orig_live_quote_answers].
    unfold hist_window, yf_history.
    destruct (history (prov w) sym (dt - MINUTE) (dt + MINUTE))
      as [df|e] eqn:Eh.
    - destruct (last_close df) as [c|] eqn:El.
      + eexists. eapply answers_bind; [apply answers_request|].
        rewrite El. apply answers_ret.
      + destruct (orig_live_quote_answers w sym) as [r Hr].
        exists r. eapply answers_bind; [apply answers_request|].
        rewrite El. exact Hr.
    - eexists. eapply answers_bind_raise. apply answers_request. }
  destruct H as [r Hr]. rewrite <- (answers_outcome _ _ Hr). exact Hr.
Qed.

Lemma fixed_get_answers (w : world) (use_history : bool) (hist_dt : option Z)
    (sym : string) :
  answers (Fixed._get w use_history hist_dt sym)
    (outcome (Fixed._get w use_history hist_dt sym)).
Proof.
  assert (H : exists r, answers (Fixed._get w use_history hist_dt sym) r).
  { unfold Fixed._get.
    destruct (if use_history then hist_dt else None) as [dt|].
    - unfold hist_window, yf_history.
      destruct (history (prov w) sym (dt - MINUTE) (dt + MINUTE))
        as [df|e] eqn:Eh.
      + exists (Ok (last_close df)).
        eapply answers_bind; [apply answers_request|].
        destruct (last_close df); apply answers_ret.
      + eexists. eapply answers_bind_raise. apply answers_request.
    - unfold yf_info, requests_get.
      destruct (info_price (prov w) sym) as [[p|]|e] eqn:Ei.
      + eexists. eapply answers_bind; [apply answers_request|].
        apply answers_ret.
      + destruct (quote (prov w) sym) as [data|e] eqn:Eq.
        * eexists. eapply answers_bind; [apply answers_request|].
          apply answers_try_ok.
          eapply answers_bind; [apply answers_request|].
          instantiate (1 := match data with Some (p :: _) => p | _ => None end).
          destruct data as [[|p l]|]; apply answers_ret.
        * eexists. eapply answers_bind; [apply answers_request|].
          eapply answers_try_raise;
            [eapply answers_bind_raise; apply answers_request|].
          apply answers_ret.
      + eexists. eapply answers_bind_raise. apply answers_request. }
  destruct H as [r Hr]. rewrite <- (answers_outcome _ _ Hr). exact Hr.
Qed.

(** ** One fetch *)

Lemma saved_new_sheet : saved new_sheet = new_sheet.
Proof.
  apply map_eq. intros [r c]. unfold saved. rewrite lookup_fmap.
  destruct (new_sheet !! (r, c)) as [cl|] eqn:E; [|reflexivity].
  simpl. f_equal. apply saved_cell_id.
  apply new_sheet_lookup in E. unfold new_sheet_check in E.
  apply andb_true_iff in E as [_ E]. intros Hn. rewrite Hn in E.
  destruct ((2 <=? r)%nat && (2 <=? c)%nat); discriminate.
Qed.

Lemma difference_absent (X : gset Z) (x : Z) : x ∉ X -> X ∖ {[x]} = X.
Proof.
  intros H. apply difference_disjoint_L, disjoint_singleton_r. exact H.
Qed.

Lemma not_in_difference (X : gset Z) (x : Z) : x ∉ X ∖ {[x]}.
Proof.
  intros H. apply elem_of_difference in H as [_ H].
  apply H, elem_of_singleton. reflexivity.
Qed.

Lemma ensure_workbook_run (w : world) (st : state) :
  ensure_workbook w st
  = if bool_decide (today w ∈ torn st) then (Raise BadZipFile, st)
    else match files st !! today w with
         | Some ws => (Ok (today w, ws), st)
         | None =>
             match disk_state w with
             | DiskOk =>
                 (Ok (today w, new_sheet),
                  State (<[today w := new_sheet]> (files st)) (torn st)
                    (calls st) (tracebacks st) (emitted st))
             | DiskRefuses => (Raise IOError, st)
             | DiskBreaks =>
                 (Raise IOError,
                  State (files st) ({[today w]} ∪ torn st) (calls st)
                    (tracebacks st) (emitted st))
             end
         end.
Proof.
  unfold ensure_workbook, bind, path_exists, wb_save, load_workbook, ret.
  destruct (decide (today w ∈ torn st)) as [Hin|Hout].
  - rewrite !(bool_decide_eq_true_2 _ Hin), orb_true_r. cbn [negb].
    rewrite (bool_decide_eq_true_2 _ Hin). reflexivity.
  - rewrite !(bool_decide_eq_false_2 _ Hout), orb_false_r.
    destruct (files st !! today w) as [ws|] eqn:E.
    + rewrite bool_decide_eq_true_2 by eauto. cbn [negb].
      rewrite (bool_decide_eq_false_2 _ Hout), E. reflexivity.
    + rewrite bool_decide_eq_false_2 by (intros [x Hx]; discriminate).
      cbn [negb]. rewrite saved_new_sheet.
      destruct (disk_state w); cbn [files torn].
      * rewrite bool_decide_eq_false_2 by apply not_in_difference.
        rewrite lookup_insert_eq, difference_absent by exact Hout.
        reflexivity.
      * reflexivity.
      * rewrite delete_id by exact E. reflexivity.
Qed.

Lemma record_of_insert (fs : gmap Z worksheet) (d d' : Z) (ws : worksheet) :
  record_of (<[d := ws]> fs) d'
  = if decide (d = d') then ws else record_of fs d'.
Proof. unfold record_of. rewrite lookup_insert. case_decide; reflexivity. Qed.


Lemma record_of_delete (fs : gmap Z worksheet) (d d' : Z) :
  record_of (delete d fs) d'
  = if decide (d = d') then new_sheet else record_of fs d'.
Proof.
  unfold record_of. case_decide as E.
  - subst d'. rewrite lookup_delete_eq. reflexivity.
  - rewrite lookup_delete_ne by exact E. reflexivity.
Qed.

(** What [ensure_workbook] leaves.  When it returns, the records are the
    same and today's is handed out.  It raises when today's file is torn,
    and when there is no file for today and the disk does not take the
    new one. *)
Lemma ensure_workbook_spec (w : world) (st : state) :
  match ensure_workbook w st with
  | (Ok (fpath, ws), st') =>
      fpath = today w
      /\ ws = record_of (files st) (today w)
      /\ files st' = <[today w := ws]> (files st)
      /\ torn st' = torn st
      /\ (today w ∉ torn st)
      /\ (disk_ok w = true \/ is_Some (files st !! today w))
      /\ calls st' = calls st
      /\ tracebacks st' = tracebacks st /\ emitted st' = emitted st
  | (Raise e, st') =>
      calls st' = calls st
      /\ tracebacks st' = tracebacks st /\ emitted st' = emitted st
      /\ (st' = st
          /\ (e = IOError /\ disk_state w = DiskRefuses
              /\ files st !! today w = None
              \/ e = BadZipFile /\ (today w ∈ torn st))
          \/ e = IOError /\ disk_state w = DiskBreaks
             /\ files st !! today w = None /\ file_torn w st st')
  end.
Proof.
  rewrite ensure_workbook_run. unfold record_of, disk_ok, file_torn.
  destruct (decide (today w ∈ torn st)) as [Hin|Hout].
  - rewrite (bool_decide_eq_true_2 _ Hin). auto 10.
  - rewrite (bool_decide_eq_false_2 _ Hout).
    destruct (files st !! today w) as [ws|] eqn:E; simpl.
    + repeat split; eauto. symmetry. apply insert_id. exact E.
    + destruct (disk_state w); simpl.
      * repeat split; auto.
      * auto 10.
      * repeat split; auto. right. repeat split; auto.
        rewrite delete_id by exact E. reflexivity.
Qed.

Lemma collect_lookup {B} (rs : list (result B)) (bs : list B) :
  collect rs = Ok bs ->
  forall i r, rs !! i = Some r -> exists b, r = Ok b /\ bs !! i = Some b.
Proof.
  revert bs. induction rs as [|r0 rs IH]; intros bs H i r Hi.
  - discriminate.
  - simpl in H. destruct r0 as [b0|e]; [|discriminate].
    destruct (collect rs) as [bs'|e] eqn:E; [|discriminate].
    injection H as <-. destruct i as [|i]; simpl in *.
    + injection Hi as <-. eauto.
    + eapply IH; eauto.
Qed.

(** The store after [ensure_workbook]. *)
Lemma ensured_store_kept (w : world) (fs : gmap Z worksheet) :
  store_kept w fs (<[today w := record_of fs (today w)]> fs).
Proof.
  unfold store_kept, record_of.
  destruct (fs !! today w) as [ws|] eqn:E; simpl.
  - left. apply insert_id. exact E.
  - right. auto.
Qed.

(** Either way every record is what it was. *)
Lemma store_kept_records (w : world) (fs fs' : gmap Z worksheet) :
  store_kept w fs fs' -> forall d, record_of fs' d = record_of fs d.
Proof.
  intros [->|[Hnone ->]] d; [reflexivity|].
  rewrite record_of_insert. case_decide as E; [|reflexivity].
  subst d. unfold record_of. rewrite Hnone. reflexivity.
Qed.


(** A failure after the gathering touches no record of another day. *)
Lemma save_failure_other_days (w : world) (label : string) (e : exn)
    (st st' : state) (d : Z) :
  save_failure w label e st st' -> d <> today w ->
  record_of (files st') d = record_of (files st) d
  /\ (d ∈ torn st' <-> d ∈ torn st).
Proof.
  intros [(Hkept & Ht & _)|(_ & _ & Hf & Ht)] Hd.
  - rewrite Ht. split; [|reflexivity].
    apply (store_kept_records w). exact Hkept.
  - split; [|rewrite Ht, elem_of_union, elem_of_singleton; tauto].
    rewrite Hf, record_of_delete. case_decide; congruence.
Qed.

(** Unless the disk broke, it touches no record at all. *)
Lemma save_failure_whole (w : world) (label : string) (e : exn)
    (st st' : state) :
  save_failure w label e st st' -> disk_state w <> DiskBreaks ->
  store_kept w (files st) (files st') /\ torn st' = torn st.
Proof. intros [(Hkept & Ht & _)|(_ & Hd & _)] Hw; [auto | congruence]. Qed.

Lemma save_failure_from (w : world) (label : string) (e : exn)
    (st0 st st' : state) :
  files st = files st0 -> torn st = torn st0 ->
  save_failure w label e st st' -> save_failure w label e st0 st'.
Proof.
  unfold save_failure, file_torn. intros -> ->. auto.
Qed.

(** The tail of [_fetch], common to the two files: open the sheet, find
    the column, merge, save, notify. *)
Lemma merge_and_save_spec (w : world) (label : string)
    (prices : list (option pyfloat)) (st : state) :
  match
    bind (ensure_workbook w) (fun wb =>
      let '(fpath, ws) := wb in
      bind (match index_of label HOURS_values with
            | Some i => ret (i + 2)%nat
            | None => raise (ValueError label)
            end)
        (fun col =>
           bind (wb_save w fpath (merge_prices col ws prices))
             (fun _ => emit))) st
  with
  | (Ok _, st') =>
      exists k, index_of label HOURS_values = Some k
        /\ disk_ok w = true
        /\ (today w ∉ torn st)
        /\ files st'
           = <[today w := saved (merge_prices (slot_col k)
                                   (record_of (files st) (today w)) prices)]>
               (files st)
        /\ torn st' = torn st
        /\ calls st' = calls st
        /\ tracebacks st' = tracebacks st
        /\ emitted st' = S (emitted st)
  | (Raise e, st') =>
      calls st' = calls st
      /\ tracebacks st' = tracebacks st
      /\ emitted st' = emitted st
      /\ save_failure w label e st st'
  end.
Proof.
  unfold bind at 1. pose proof (ensure_workbook_spec w st) as He.
  destruct (ensure_workbook w st) as [[[fpath ws]|e] st1].
  - destruct He as (-> & -> & Hf & Hb & Hout & Hd & Hc & Ht & Hem).
    unfold bind at 1.
    destruct (index_of label HOURS_values) as [k|] eqn:Ek; simpl.
    + unfold bind, wb_save, emit, disk_ok.
      destruct (disk_state w) eqn:Ed; simpl.
      * exists k. rewrite Hf, insert_insert_eq, Hb. unfold slot_col.
        rewrite difference_absent by exact Hout. auto 10.
      * repeat split; auto. left. rewrite Hf.
        split; [apply ensured_store_kept | auto].
      * repeat split; auto. right. unfold file_torn. simpl.
        rewrite Hf, Hb, delete_insert_eq. auto.
    + repeat split; auto. left. rewrite Hf.
      split; [apply ensured_store_kept | auto].
  - destruct He as (Hc & Ht & Hem & [(-> & Hcause)|(-> & Hd & _ & Htorn)]).
    + repeat split; auto. left. split; [left; reflexivity|].
      split; [reflexivity|]. destruct Hcause as [(-> & Hd & _)|[-> Hin]]; auto.
    + repeat split; auto. right. auto.
Qed.

(** Gathering the prices and merging them.  Either every lookup answered,
    the label is a slot and the disk took the sheet, and today's record is
    what was saved of the old one with the prices merged in; or an
    exception was raised: by a lookup, and the folder is as it was, or
    after the gathering. *)
Lemma gather_and_merge_spec (f : string -> M (option pyfloat)) (w : world)
    (label : string) (st : state) :
  (forall sym, answers (f sym) (outcome (f sym))) ->
  match
    bind (pool_map w f TICKERS) (fun prices =>
      bind (ensure_workbook w) (fun wb =>
        let '(fpath, ws) := wb in
        bind (match index_of label HOURS_values with
              | Some i => ret (i + 2)%nat
              | None => raise (ValueError label)
              end)
          (fun col =>
             bind (wb_save w fpath (merge_prices col ws prices))
               (fun _ => emit)))) st
  with
  | (Ok _, st') =>
      exists prices k,
        collect (map (fun sym => outcome (f sym)) TICKERS) = Ok prices
        /\ index_of label HOURS_values = Some k
        /\ disk_ok w = true
        /\ (today w ∉ torn st)
        /\ files st'
           = <[today w := saved (merge_prices (slot_col k)
                                   (record_of (files st) (today w)) prices)]>
               (files st)
        /\ torn st' = torn st
        /\ tracebacks st' = tracebacks st
        /\ emitted st' = S (emitted st)
  | (Raise e, st') =>
      tracebacks st' = tracebacks st
      /\ emitted st' = emitted st
      /\ (collect (map (fun sym => outcome (f sym)) TICKERS) = Raise e
          /\ files st' = files st /\ torn st' = torn st
          \/ (exists prices,
                 collect (map (fun sym => outcome (f sym)) TICKERS) = Ok prices)
             /\ save_failure w label e st st')
  end.
Proof.
  intros Hans. unfold bind at 1.
  destruct (answers_pool_map w f TICKERS Hans st) as [Hr Hs].
  destruct (pool_map w f TICKERS st) as [r st1].
  cbn [fst snd] in Hr, Hs. subst r.
  destruct Hs as (Hf & Hb & Ht & Hem & _).
  destruct (collect (map (fun sym => outcome (f sym)) TICKERS))
    as [prices|e].
  - pose proof (merge_and_save_spec w label prices st1) as H.
    match goal with
    | H : match ?m with _ => _ end |- match ?m' with _ => _ end =>
        change m' with m; destruct m as [[u|e] st2]
    end.
    + destruct H as (k & Hk & Hd & Hout & Hf' & Hb' & _ & Ht' & Hem').
      exists prices, k. rewrite Hf', Hb', Ht', Hem', Hf, Hb, Ht, Hem.
      rewrite Hb in Hout. auto 10.
    + destruct H as (_ & Ht' & Hem' & Hfail).
      rewrite Ht', Hem', Ht, Hem. repeat split; auto. right.
      split; [eauto|]. eapply save_failure_from; eassumption.
  - rewrite Ht, Hem, Hf, Hb. repeat split; auto.
Qed.

Lemma collect_length {B} (rs : list (result B)) (bs : list B) :
  collect rs = Ok bs -> length bs = length rs.
Proof.
  revert bs. induction rs as [|r0 rs IH]; intros bs H; simpl in *.
  - injection H as <-. reflexivity.
  - destruct r0 as [b0|e]; [|discriminate].
    destruct (collect rs) as [bs'|e] eqn:E; [|discriminate].
    injection H as <-. simpl. f_equal. apply IH. reflexivity.
Qed.

Lemma gathered_length (f : string -> M (option pyfloat))
    (prices : list (option pyfloat)) :
  collect (map (fun sym => outcome (f sym)) TICKERS) = Ok prices ->
  length prices = length TICKERS.
Proof. intros H. apply collect_length in H. rewrite H. apply length_map. Qed.

(** [_fetch] is its body under [try]: it never raises, and what the body
    raised is printed. *)
Lemma orig_fetch_run (w : world) (label : string) (use_history : bool)
    (hist_dt : option Z) (st : state) :
  Orig._fetch w label use_history hist_dt st
  = match Orig._fetch_body w label use_history hist_dt st with
    | (Ok u, st') => (Ok u, st')
    | (Raise e, st') =>
        (Ok tt,
         State (files st') (torn st') (calls st') (tracebacks st' ++ [e])
           (emitted st'))
    end.
Proof. reflexivity. Qed.

Lemma fixed_fetch_run (w : world) (label : string) (use_history : bool)
    (hist_dt : option Z) (st : state) :
  Fixed._fetch w label use_history hist_dt st
  = match Fixed._fetch_body w label use_history hist_dt st with
    | (Ok u, st') => (Ok u, st')
    | (Raise e, st') =>
        (Ok tt,
         State (files st') (torn st') (calls st') (tracebacks st' ++ [e])
           (emitted st'))
    end.
Proof. reflexivity. Qed.

(** The body of [_fetch] of [src/DOW30_Excel_Dashboard.py]: what it
    returns or raises, and the state it leaves. *)
Lemma orig_fetch_body_spec (w : world) (label : string) (use_history : bool)
    (hist_dt : option Z) (st : state) :
  match Orig._fetch_body w label use_history hist_dt st with
  | (Ok _, st') =>
      exists prices k,
        orig_prices w use_history hist_dt = Ok prices
        /\ index_of label HOURS_values = Some k
        /\ disk_ok w = true
        /\ (today w ∉ torn st)
        /\ files st'
           = <[today w := saved (merge_prices (slot_col k)
                                   (record_of (files st) (today w)) prices)]>
               (files st)
        /\ torn st' = torn st
        /\ tracebacks st' = tracebacks st
        /\ emitted st' = S (emitted st)
  | (Raise e, st') =>
      tracebacks st' = tracebacks st
      /\ emitted st' = emitted st
      /\ (orig_prices w use_history hist_dt = Raise e
          /\ files st' = files st /\ torn st' = torn st
          \/ (exists prices, orig_prices w use_history hist_dt = Ok prices)
             /\ save_failure w label e st st')
  end.
Proof.
  exact (gather_and_merge_spec (Orig._get w use_history hist_dt) w label st
           (orig_get_answers w use_history hist_dt)).
Qed.

(** The same for [src/DOW30_Excel_Dashboard_fixed.py]. *)
Lemma fixed_fetch_body_spec (w : world) (label : string) (use_history : bool)
    (hist_dt : option Z) (st : state) :
  match Fixed._fetch_body w label use_history hist_dt st with
  | (Ok _, st') =>
      exists dt prices k,
        fixed_hist_dt w label use_history hist_dt = Ok dt
        /\ fixed_prices w use_history dt = Ok prices
        /\ index_of label HOURS_values = Some k
        /\ disk_ok w = true
        /\ (today w ∉ torn st)
        /\ files st'
           = <[today w := saved (merge_prices (slot_col k)
                                   (record_of (files st) (today w)) prices)]>
               (files st)
        /\ torn st' = torn st
        /\ tracebacks st' = tracebacks st
        /\ emitted st' = S (emitted st)
  | (Raise e, st') =>
      tracebacks st' = tracebacks st
      /\ emitted st' = emitted st
      /\ (fixed_gathered w label use_history hist_dt = Raise e
          /\ files st' = files st /\ torn st' = torn st
          \/ (exists prices,
                 fixed_gathered w label use_history hist_dt = Ok prices)
             /\ save_failure w label e st st')
  end.
Proof.
  unfold Fixed._fetch_body, fixed_gathered. unfold bind at 1.
  assert (Hrun :
    match use_history, hist_dt with
    | true, None =>
        match hour_of_label label HOURS with
        | None => raise (ValueError label)
        | Some hour => ret (Some (combine (today w) hour))
        end
    | _, _ => ret hist_dt
    end st
    = (fixed_hist_dt w label use_history hist_dt, st)).
  { unfold fixed_hist_dt.
    destruct use_history, hist_dt; try reflexivity.
    destruct (hour_of_label label HOURS); reflexivity. }
  rewrite Hrun.
  destruct (fixed_hist_dt w label use_history hist_dt) as [dt|e].
  - pose proof (gather_and_merge_spec (Fixed._get w use_history dt) w label st
                  (fixed_get_answers w use_history dt)) as H.
    match goal with
    | H : match ?m with _ => _ end |- match ?m' with _ => _ end =>
        change m' with m; destruct m as [[u|e] st2]
    end.
    + destruct H as (prices & k & H). exists dt, prices, k. auto.
    + exact H.
  - repeat split; auto.
Qed.

(** One fetch of either file, seen from outside. *)
Lemma orig_fetch_effect (w : world) (label : string) (use_history : bool)
    (hist_dt : option Z) (st : state) :
  fetch_effect w label (orig_prices w use_history hist_dt) st
    (snd (Orig._fetch w label use_history hist_dt st)).
Proof.
  rewrite orig_fetch_run.
  pose proof (orig_fetch_body_spec w label use_history hist_dt st) as H.
  destruct (Orig._fetch_body w label use_history hist_dt st) as [[u|e] st1];
    cbn [snd].
  - left. destruct H as (prices & k & Hp & Hk & Hd & Hout & Hf & Hb & Ht & He).
    exists prices, k. pose proof (gathered_length _ _ Hp). auto 10.
  - right. destruct H as (Ht & He & Hc). exists e.
    cbn [files torn tracebacks emitted]. rewrite Ht.
    split; [reflexivity|]. split; [exact He|].
    destruct Hc as [Hc|[Hp Hfail]]; [left; exact Hc|right].
    split; [exact Hp|]. exact Hfail.
Qed.

Lemma fixed_fetch_effect (w : world) (label : string) (use_history : bool)
    (hist_dt : option Z) (st : state) :
  fetch_effect w label (fixed_gathered w label use_history hist_dt) st
    (snd (Fixed._fetch w label use_history hist_dt st)).
Proof.
  rewrite fixed_fetch_run.
  pose proof (fixed_fetch_body_spec w label use_history hist_dt st) as H.
  destruct (Fixed._fetch_body w label use_history hist_dt st) as [[u|e] st1];
    cbn [snd].
  - left.
    destruct H as (dt & prices & k & Hdt & Hp & Hk & Hd & Hout & Hf & Hb
                   & Ht & He).
    exists prices, k. unfold fixed_gathered. rewrite Hdt.
    pose proof (gathered_length _ _ Hp). auto 10.
  - right. destruct H as (Ht & He & Hc). exists e.
    cbn [files torn tracebacks emitted]. rewrite Ht.
    split; [reflexivity|]. split; [exact He|].
    destruct Hc as [Hc|[Hp Hfail]]; [left; exact Hc|right].
    split; [exact Hp|]. exact Hfail.
Qed.

Lemma orig_fetch_ok (w : world) (label : string) (use_history : bool)
    (hist_dt : option Z) (st : state) :
  fst (Orig._fetch w label use_history hist_dt st) = Ok tt.
Proof.
  rewrite orig_fetch_run.
  destruct (Orig._fetch_body w label use_history hist_dt st) as [[[]|e] st1];
    reflexivity.
Qed.

Lemma fixed_fetch_ok (w : world) (label : string) (use_history : bool)
    (hist_dt : option Z) (st : state) :
  fst (Fixed._fetch w label use_history hist_dt st) = Ok tt.
Proof.
  rewrite fixed_fetch_run.
  destruct (Fixed._fetch_body w label use_history hist_dt st)
    as [[[]|e] st1]; reflexivity.
Qed.

Lemma collect_lookup_inv {B} (rs : list (result B)) (bs : list B) :
  collect rs = Ok bs ->
  forall i b, bs !! i = Some b -> rs !! i = Some (Ok b).
Proof.
  revert bs. induction rs as [|r0 rs IH]; intros bs H i b Hi; simpl in H.
  - injection H as <-. discriminate.
  - destruct r0 as [b0|e]; [|discriminate].
    destruct (collect rs) as [bs'|e] eqn:E; [|discriminate].
    injection H as <-. destruct i as [|i]; simpl in *.
    + injection Hi as <-. reflexivity.
    + eapply IH; eauto.
Qed.

Lemma map_lookup_inv {A B} (f : A -> B) (l : list A) (i : nat) (y : B) :
  map f l !! i = Some y -> exists x, l !! i = Some x /\ y = f x.
Proof.
  revert i. induction l as [|x l IH]; intros i H; [discriminate|].
  destruct i as [|i]; simpl in *.
  - injection H as <-. eauto.
  - apply IH. exact H.
Qed.

Lemma map_lookup {A B} (f : A -> B) (l : list A) (i : nat) (x : A) :
  l !! i = Some x -> map f l !! i = Some (f x).
Proof.
  revert i. induction l as [|x0 l IH]; intros i H; [discriminate|].
  destruct i as [|i]; simpl in *.
  - injection H as <-. reflexivity.
  - apply IH. exact H.
Qed.

(** Each price gathered is what the lookup of its symbol answered. *)
Lemma prices_lookup (f : string -> M (option pyfloat))
    (prices : list (option pyfloat)) :
  collect (map (fun sym => outcome (f sym)) TICKERS) = Ok prices ->
  forall i price, prices !! i = Some price ->
    exists sym, TICKERS !! i = Some sym /\ outcome (f sym) = Ok price.
Proof.
  intros H i price Hi.
  pose proof (collect_lookup_inv _ _ H i price Hi) as Hr.
  apply map_lookup_inv in Hr as (sym & Hs & Ho). eauto.
Qed.

Lemma prices_of_symbol (f : string -> M (option pyfloat))
    (prices : list (option pyfloat)) :
  collect (map (fun sym => outcome (f sym)) TICKERS) = Ok prices ->
  forall i sym, TICKERS !! i = Some sym ->
    exists price, outcome (f sym) = Ok price /\ prices !! i = Some price.
Proof.
  intros H i sym Hi.
  exact (collect_lookup _ _ H i _
           (map_lookup (fun sym => outcome (f sym)) TICKERS i sym Hi)).
Qed.

(** What the prices gathered by the fixed file are the outcomes of. *)
Lemma fixed_gathered_prices (w : world) (label : string) (use_history : bool)
    (hist_dt : option Z) (prices : list (option pyfloat)) :
  fixed_gathered w label use_history hist_dt = Ok prices ->
  exists dt, fixed_hist_dt w label use_history hist_dt = Ok dt
    /\ fixed_prices w use_history dt = Ok prices.
Proof.
  unfold fixed_gathered.
  destruct (fixed_hist_dt w label use_history hist_dt) as [dt|e];
    [eauto | discriminate].
Qed.


Lemma saved_no_nan (ws : worksheet) : no_nan (saved ws).
Proof.
  intros r c. rewrite ws_get_saved, cvalue_saved_cell.
  destruct (cvalue (ws_get ws r c)); discriminate.
Qed.

Lemma new_sheet_no_nan : no_nan new_sheet.
Proof. rewrite <- saved_new_sheet. apply saved_no_nan. Qed.

(** ** C1: a price once written stays *)







Lemma last_In {A} (l : list A) (x : A) : last l = Some x -> In x l.
Proof.
  induction l as [|y l IH]; [discriminate|].
  destruct l as [|z l]; simpl in *.
  - intros [= ->]. auto.
  - intros H. right. apply IH. exact H.
Qed.

Lemma last_close_In (rows : list (Z * pyfloat)) (c : pyfloat) :
  last_close rows = Some c -> exists t, In (t, c) rows.
Proof.
  unfold last_close. destruct (last rows) as [[t c']|] eqn:E; [|discriminate].
  intros [= <-]. exists t. apply last_In. exact E.
Qed.

Lemma float_if_truthy_some (p : option pyfloat) (x : pyfloat) :
  float_if_truthy p = Some x -> p = Some x.
Proof.
  destruct p as [[q|]|]; simpl; try discriminate; [|auto].
  destruct (Qeq_bool q 0); [discriminate | auto].
Qed.

(** What the lookups answer is what a provider answered. *)
Lemma orig_live_quote_from (w : world) (sym : string) (x : pyfloat) :
  outcome (Orig.live_quote w sym) = Ok (Some x) ->
  info_price (prov w) sym = Ok (Some x)
  \/ exists l, quote (prov w) sym = Ok (Some l) /\ In (Some x) l.
Proof.
  unfold outcome, Orig.live_quote, yf_info, requests_get, request, bind,
    ret, raise. cbn [fst snd].
  destruct (info_price (prov w) sym) as [[p|]|e] eqn:Ei; cbn -[float_if_truthy].
  - intros H. assert (H' : float_if_truthy (Some p) = Some x) by congruence.
    apply float_if_truthy_some in H'. left. congruence.
  - destruct (quote (prov w) sym) as [[[|entry l]|]|e] eqn:Eq;
      cbn -[float_if_truthy]; try discriminate.
    intros H. assert (H' : float_if_truthy entry = Some x) by congruence.
    apply float_if_truthy_some in H'. subst entry.
    right. exists (Some x :: l). split; [reflexivity | left; reflexivity].
  - discriminate.
Qed.

Lemma orig_get_from (w : world) (use_history : bool) (hist_dt : option Z)
    (sym : string) (x : pyfloat) :
  outcome (Orig._get w use_history hist_dt sym) = Ok (Some x) ->
  (exists a b rows t, history (prov w) sym a b = Ok rows /\ In (t, x) rows)
  \/ info_price (prov w) sym = Ok (Some x)
  \/ exists l, quote (prov w) sym = Ok (Some l) /\ In (Some x) l.
Proof.
  unfold Orig._get.
  destruct (if use_history then hist_dt else None) as [dt|];
    [|intros H; right; apply orig_live_quote_from; exact H].
  unfold outcome. unfold hist_window, yf_history, request, bind, ret.
  cbn [fst snd].
  destruct (history (prov w) sym (dt - MINUTE) (dt + MINUTE)) as [df|e] eqn:Eh;
    cbn [fst snd]; [|discriminate].
  destruct (last_close df) as [c|] eqn:El.
  - cbn. intros [= ->]. apply last_close_In in El as [t Ht].
    left. eauto 10.
  - intros H. right. apply orig_live_quote_from.
    revert H. unfold outcome, Orig.live_quote, yf_info, requests_get, request,
      bind, ret, raise. cbn [fst snd].
    destruct (info_price (prov w) sym) as [[p|]|e];
      cbn -[float_if_truthy]; auto.
    destruct (quote (prov w) sym) as [[[|entry l]|]|e];
      cbn -[float_if_truthy]; auto.
Qed.

Lemma fixed_get_from (w : world) (use_history : bool) (hist_dt : option Z)
    (sym : string) (x : pyfloat) :
  outcome (Fixed._get w use_history hist_dt sym) = Ok (Some x) ->
  (exists a b rows t, history (prov w) sym a b = Ok rows /\ In (t, x) rows)
  \/ info_price (prov w) sym = Ok (Some x)
  \/ exists l, quote (prov w) sym = Ok (Some l) /\ In (Some x) l.
Proof.
  unfold outcome, Fixed._get.
  destruct (if use_history then hist_dt else None) as [dt|].
  - unfold hist_window, yf_history, request, bind, ret. cbn [fst snd].
    destruct (history (prov w) sym (dt - MINUTE) (dt + MINUTE))
      as [df|e] eqn:Eh; cbn; [|discriminate].
    destruct (last_close df) as [c|] eqn:El; cbn; [|discriminate].
    intros [= ->]. apply last_close_In in El as [t Ht]. left. eauto 10.
  - unfold yf_info, requests_get, request, bind, ret, try_except.
    cbn [fst snd].
    destruct (info_price (prov w) sym) as [[p|]|e] eqn:Ei; cbn.
    + intros [= ->]. auto.
    + destruct (quote (prov w) sym) as [[[|entry l]|]|e] eqn:Eq; cbn;
        try discriminate.
      intros [= ->]. right. right. exists (Some x :: l).
      split; [reflexivity | left; reflexivity].
    + discriminate.
Qed.









(** ** C9: a fetch that fails *)

(** After a job that returns, [run_all] goes on with the next one. *)
Lemma run_all_next {F} (run_func : world -> F -> M unit) (w : world) (f : F)
    (fs : list F) (st : state) :
  fst (run_func w f st) = Ok tt ->
  run_all run_func w (f :: fs) st
  = run_all run_func w fs (snd (run_func w f st)).
Proof.
  intros H. simpl. unfold bind.
  destruct (run_func w f st) as [r st1]. simpl in H. subst r. reflexivity.
Qed.

(** An unknown label makes the body raise. *)
Lemma orig_unknown_label_raises (w : world) (label : string)
    (use_history : bool) (hist_dt : option Z) (st : state) :
  index_of label HOURS_values = None ->
  exists e, fst (Orig._fetch_body w label use_history hist_dt st) = Raise e.
Proof.
  intros Hl.
  pose proof (orig_fetch_body_spec w label use_history hist_dt st) as H.
  destruct (Orig._fetch_body w label use_history hist_dt st) as [[u|e] st1].
  - destruct H as (? & ? & _ & Hk & _). congruence.
  - eauto.
Qed.

Lemma fixed_unknown_label_raises (w : world) (label : string)
    (use_history : bool) (hist_dt : option Z) (st : state) :
  index_of label HOURS_values = None ->
  exists e, fst (Fixed._fetch_body w label use_history hist_dt st) = Raise e.
Proof.
  intros Hl.
  pose proof (fixed_fetch_body_spec w label use_history hist_dt st) as H.
  destruct (Fixed._fetch_body w label use_history hist_dt st) as [[u|e] st1].
  - destruct H as (? & ? & ? & _ & _ & Hk & _). congruence.
  - eauto.
Qed.

Lemma raise_effect_failed (w : world) (label : string) (e : exn)
    (gathered : result (list (option pyfloat))) (st st' : state) :
  tracebacks st' = tracebacks st ++ [e] ->
  emitted st' = emitted st ->
  (gathered = Raise e /\ files st' = files st /\ torn st' = torn st
   \/ (exists prices, gathered = Ok prices) /\ save_failure w label e st st') ->
  failed_fetch w e st st'.
Proof.
  intros Ht Hem [(_ & Hf & Hb)|(_ & Hfail)].
  - unfold failed_fetch. rewrite Hf, Hb.
    repeat split; auto. left. split; [left|]; reflexivity.
  - split; [exact Ht|]. split; [exact Hem|]. split; [|split].
    + destruct Hfail as [(Hkept & Hb & _)|H]; auto.
    + intros d Hd. eapply save_failure_other_days; eassumption.
    + intros Hdisk.
      destruct (save_failure_whole _ _ _ _ _ Hfail Hdisk) as [Hkept Hb].
      split; [exact Hb|]. apply (store_kept_records w). exact Hkept.
Qed.

Lemma orig_failed_fetch (w : world) (label : string) (use_history : bool)
    (hist_dt : option Z) (st : state) (e : exn) :
  fst (Orig._fetch_body w label use_history hist_dt st) = Raise e ->
  failed_fetch w e st (snd (Orig._fetch w label use_history hist_dt st)).
Proof.
  intros Hr. rewrite orig_fetch_run.
  pose proof (orig_fetch_body_spec w label use_history hist_dt st) as H.
  destruct (Orig._fetch_body w label use_history hist_dt st) as [[u|e'] st1];
    [discriminate|].
  cbn [fst] in Hr. injection Hr as ->. cbn [snd].
  destruct H as (Ht & Hem & Hc).
  eapply raise_effect_failed; [| |exact Hc].
  - cbn [tracebacks]. rewrite Ht. reflexivity.
  - exact Hem.
Qed.

Lemma fixed_failed_fetch (w : world) (label : string) (use_history : bool)
    (hist_dt : option Z) (st : state) (e : exn) :
  fst (Fixed._fetch_body w label use_history hist_dt st) = Raise e ->
  failed_fetch w e st (snd (Fixed._fetch w label use_history hist_dt st)).
Proof.
  intros Hr. rewrite fixed_fetch_run.
  pose proof (fixed_fetch_body_spec w label use_history hist_dt st) as H.
  destruct (Fixed._fetch_body w label use_history hist_dt st)
    as [[u|e'] st1]; [discriminate|].
  cbn [fst] in Hr. injection Hr as ->. cbn [snd].
  destruct H as (Ht & Hem & Hc).
  eapply raise_effect_failed; [| |exact Hc].
  - cbn [tracebacks]. rewrite Ht. reflexivity.
  - exact Hem.
Qed.

(** ** The loop *)

Lemma run_fetches_ok (fetch : world -> string -> bool -> option Z -> M unit)
    (cs : list fetch_call) :
  (forall w l u d st, fst (fetch w l u d st) = Ok tt) ->
  forall st, fst (run_fetches fetch cs st) = Ok tt.
Proof.
  intros Hok. induction cs as [|c cs IH]; intros st; [reflexivity|].
  simpl. unfold bind.
  pose proof (Hok (fc_world c) (fc_label c) (fc_history c) (fc_dt c) st) as H.
  destruct (fetch (fc_world c) (fc_label c) (fc_history c) (fc_dt c) st)
    as [r st1].
  simpl in H. subst r. apply IH.
Qed.

Lemma run_fetches_cons (fetch : world -> string -> bool -> option Z -> M unit)
    (c : fetch_call) (cs : list fetch_call) (st : state) :
  (forall w l u d st, fst (fetch w l u d st) = Ok tt) ->
  run_fetches fetch (c :: cs) st
  = run_fetches fetch cs
      (snd (fetch (fc_world c) (fc_label c) (fc_history c) (fc_dt c) st)).
Proof.
  intros Hok. simpl. unfold bind.
  pose proof (Hok (fc_world c) (fc_label c) (fc_history c) (fc_dt c) st) as H.
  destruct (fetch (fc_world c) (fc_label c) (fc_history c) (fc_dt c) st)
    as [r st1].
  simpl in H. subst r. reflexivity.
Qed.

(** Running two lists of calls in a row. *)
Lemma run_fetches_app (fetch : world -> string -> bool -> option Z -> M unit)
    (cs1 cs2 : list fetch_call) :
  (forall w l u d st, fst (fetch w l u d st) = Ok tt) ->
  forall st,
    run_fetches fetch (cs1 ++ cs2) st
    = run_fetches fetch cs2 (snd (run_fetches fetch cs1 st)).
Proof.
  intros Hok. induction cs1 as [|c cs1 IH]; intros st; [reflexivity|].
  cbn [app]. rewrite !run_fetches_cons by exact Hok. apply IH.
Qed.

Lemma run_fetches_pair (fetch : world -> string -> bool -> option Z -> M unit)
    (cs : list fetch_call) (st : state) :
  (forall w l u d st, fst (fetch w l u d st) = Ok tt) ->
  run_fetches fetch cs st = (Ok tt, snd (run_fetches fetch cs st)).
Proof.
  intros Hok. pose proof (run_fetches_ok fetch cs Hok st) as H.
  destruct (run_fetches fetch cs st) as [r st1]. simpl in *. subst r.
  reflexivity.
Qed.

(** The jobs of a poll in which the midnight job is not due: each is a
    call of [_fetch], and each call is made, one after the other, whatever
    the calls before it did. *)
Lemma orig_run_all_fetches (w : world) (fs : list Orig.job_fn) :
  forallb (fun f => negb (Orig.is_ensure f)) fs = true ->
  forall st,
    run_all Orig.run_func w fs st
    = (Ok tt, snd (run_fetches Orig._fetch (omap (orig_fetch_of w) fs) st)).
Proof.
  induction fs as [|f fs IH]; intros Hfs st; [reflexivity|].
  cbn [forallb] in Hfs. apply andb_true_iff in Hfs as [Hf Hfs].
  destruct f as [|l d|l]; [discriminate|..];
    rewrite run_all_next by apply orig_fetch_ok;
    rewrite (IH Hfs); cbn [omap list_omap orig_fetch_of];
    rewrite run_fetches_cons by apply orig_fetch_ok; reflexivity.
Qed.

Lemma fixed_run_all_fetches (w : world) (fs : list Fixed.job_fn) :
  forallb (fun f => negb (Fixed.is_ensure f)) fs = true ->
  forall st,
    run_all Fixed.run_func w fs st
    = (Ok tt, snd (run_fetches Fixed._fetch (omap (fixed_fetch_of w) fs) st)).
Proof.
  induction fs as [|f fs IH]; intros Hfs st; [reflexivity|].
  cbn [forallb] in Hfs. apply andb_true_iff in Hfs as [Hf Hfs].
  destruct f as [|l d|l]; [discriminate|..];
    rewrite run_all_next by apply fixed_fetch_ok;
    rewrite (IH Hfs); cbn [omap list_omap fixed_fetch_of];
    rewrite run_fetches_cons by apply fixed_fetch_ok; reflexivity.
Qed.

Lemma orig_poll_run (w : world) (js : list (job Orig.job_fn)) (st : state) :
  forallb (fun f => negb (Orig.is_ensure f)) (pending (now w) js) = true ->
  run_pending Orig.run_func w js st
  = (Ok (reschedule (now w) js),
     snd (run_fetches Orig._fetch (orig_poll_calls w js) st)).
Proof.
  intros H. unfold run_pending, bind.
  rewrite (orig_run_all_fetches w _ H). reflexivity.
Qed.

Lemma fixed_poll_run (w : world) (js : list (job Fixed.job_fn)) (st : state) :
  forallb (fun f => negb (Fixed.is_ensure f)) (pending (now w) js) = true ->
  run_pending Fixed.run_func w js st
  = (Ok (reschedule (now w) js),
     snd (run_fetches Fixed._fetch (fixed_poll_calls w js) st)).
Proof.
  intros H. unfold run_pending, bind.
  rewrite (fixed_run_all_fetches w _ H). reflexivity.
Qed.

(** The loop, over polls at none of which the midnight job is due: it
    goes through all of them and makes every call of every poll. *)
Lemma orig_loop_run (polls : list world) :
  forall js st,
    never_due Orig.is_ensure polls js = true ->
    Orig._run polls js st
    = (Ok (loop_jobs polls js),
       snd (run_fetches Orig._fetch (orig_loop_calls polls js) st)).
Proof.
  induction polls as [|w polls IH]; intros js st H; [reflexivity|].
  cbn [never_due] in H. apply andb_true_iff in H as [Hw H].
  unfold Orig._run in *. cbn [run_loop orig_loop_calls loop_jobs].
  unfold bind at 1. rewrite (orig_poll_run w js st Hw).
  rewrite (IH _ _ H), run_fetches_app by apply orig_fetch_ok. reflexivity.
Qed.

Lemma fixed_loop_run (polls : list world) :
  forall js st,
    never_due Fixed.is_ensure polls js = true ->
    Fixed._run_scheduler polls js st
    = (Ok (loop_jobs polls js),
       snd (run_fetches Fixed._fetch (fixed_loop_calls polls js) st)).
Proof.
  induction polls as [|w polls IH]; intros js st H; [reflexivity|].
  cbn [never_due] in H. apply andb_true_iff in H as [Hw H].
  unfold Fixed._run_scheduler in *.
  cbn [run_loop fixed_loop_calls loop_jobs].
  unfold bind at 1. rewrite (fixed_poll_run w js st Hw).
  rewrite (IH _ _ H), run_fetches_app by apply fixed_fetch_ok. reflexivity.
Qed.

(** An exception that leaves [run_all] was raised by [ensure_workbook],
    the midnight job: no call of [_fetch] raises. *)
Lemma orig_run_all_raise (w : world) (fs : list Orig.job_fn) (e : exn) :
  forall st,
    fst (run_all Orig.run_func w fs st) = Raise e ->
    In Orig.DoEnsure fs
    /\ exists st0, fst (ensure_workbook w st0) = Raise e.
Proof.
  induction fs as [|f fs IH]; intros st H; [discriminate|].
  destruct f as [|l d|l].
  - split; [left; reflexivity|].
    cbn [run_all Orig.run_func] in H. unfold bind in H.
    destruct (ensure_workbook w st) as [[wb|e'] st1] eqn:E.
    + unfold ret in H. destruct (IH st1 H) as [_ H']. exact H'.
    + cbn [fst] in H. injection H as ->. exists st. rewrite E. reflexivity.
  - rewrite run_all_next in H by apply orig_fetch_ok.
    destruct (IH _ H) as [Hin H']. split; [right; exact Hin | exact H'].
  - rewrite run_all_next in H by apply orig_fetch_ok.
    destruct (IH _ H) as [Hin H']. split; [right; exact Hin | exact H'].
Qed.

Lemma fixed_run_all_raise (w : world) (fs : list Fixed.job_fn) (e : exn) :
  forall st,
    fst (run_all Fixed.run_func w fs st) = Raise e ->
    In Fixed.DoEnsure fs
    /\ exists st0, fst (ensure_workbook w st0) = Raise e.
Proof.
  induction fs as [|f fs IH]; intros st H; [discriminate|].
  destruct f as [|l d|l].
  - split; [left; reflexivity|].
    cbn [run_all Fixed.run_func] in H. unfold bind in H.
    destruct (ensure_workbook w st) as [[wb|e'] st1] eqn:E.
    + unfold ret in H. destruct (IH st1 H) as [_ H']. exact H'.
    + cbn [fst] in H. injection H as ->. exists st. rewrite E. reflexivity.
  - rewrite run_all_next in H by apply fixed_fetch_ok.
    destruct (IH _ H) as [Hin H']. split; [right; exact Hin | exact H'].
  - rewrite run_all_next in H by apply fixed_fetch_ok.
    destruct (IH _ H) as [Hin H']. split; [right; exact Hin | exact H'].
Qed.

(** The same for the loop: only the midnight job can end it. *)
Lemma orig_loop_raise (polls : list world) (e : exn) :
  forall js st,
    fst (Orig._run polls js st) = Raise e ->
    exists w st0, In w polls /\ fst (ensure_workbook w st0) = Raise e.
Proof.
  induction polls as [|w polls IH]; intros js st H; [discriminate|].
  unfold Orig._run in *. cbn [run_loop] in H. unfold bind at 1 in H.
  unfold run_pending in H. unfold bind at 1 in H.
  destruct (run_all Orig.run_func w (pending (now w) js) st)
    as [[u|e'] st1] eqn:E.
  - unfold ret at 1 in H. destruct (IH _ _ H) as (w' & st0 & Hin & H').
    exists w', st0. split; [right; exact Hin | exact H'].
  - cbn [fst] in H. injection H as ->.
    destruct (orig_run_all_raise w (pending (now w) js) e st) as [_ [st0 H']];
      [rewrite E; reflexivity|].
    exists w, st0. split; [left; reflexivity | exact H'].
Qed.

Lemma fixed_loop_raise (polls : list world) (e : exn) :
  forall js st,
    fst (Fixed._run_scheduler polls js st) = Raise e ->
    exists w st0, In w polls /\ fst (ensure_workbook w st0) = Raise e.
Proof.
  induction polls as [|w polls IH]; intros js st H; [discriminate|].
  unfold Fixed._run_scheduler in *. cbn [run_loop] in H.
  unfold bind at 1 in H. unfold run_pending in H. unfold bind at 1 in H.
  destruct (run_all Fixed.run_func w (pending (now w) js) st)
    as [[u|e'] st1] eqn:E.
  - unfold ret at 1 in H. destruct (IH _ _ H) as (w' & st0 & Hin & H').
    exists w', st0. split; [right; exact Hin | exact H'].
  - cbn [fst] in H. injection H as ->.
    destruct (fixed_run_all_raise w (pending (now w) js) e st) as [_ [st0 H']];
      [rewrite E; reflexivity|].
    exists w, st0. split; [left; reflexivity | exact H'].
Qed.

(** C9 (as amended).  In either file, when the body of [_fetch] raises,
    whatever the exception, [_fetch] itself returns: the exception is
    printed and no signal is emitted.  The records of the other days are
    as they were.  Today's record is as it was too, but for a still new
    sheet that [ensure_workbook] may have created, unless the exception is
    that of a save that failed while it wrote: then today's file is torn
    and its record lost.  An unknown label is a case of the first kind.
    The scheduler goes on: at a poll in which the midnight job is not due
    every due job makes its call of [_fetch], each on the state the one
    before left, and the poll returns; the loop goes through all such
    polls; and an exception that ends the loop is one that
    [ensure_workbook], the midnight job, raised. *)
Theorem failed_fetch_is_noop (w : world) (label : string) (use_history : bool)
    (hist_dt : option Z) (st : state) (e : exn) :
  (fst (Orig._fetch_body w label use_history hist_dt st) = Raise e ->
   fst (Orig._fetch w label use_history hist_dt st) = Ok tt
   /\ failed_fetch w e st (snd (Orig._fetch w label use_history hist_dt st)))
  /\ (fst (Fixed._fetch_body w label use_history hist_dt st) = Raise e ->
      fst (Fixed._fetch w label use_history hist_dt st) = Ok tt
      /\ failed_fetch w e st
           (snd (Fixed._fetch w label use_history hist_dt st)))
  /\ (index_of label HOURS_values = None ->
      (exists e',
          fst (Orig._fetch_body w label use_history hist_dt st) = Raise e')
      /\ (exists e',
            fst (Fixed._fetch_body w label use_history hist_dt st) = Raise e'))
  /\ (forall js,
        forallb (fun f => negb (Orig.is_ensure f)) (pending (now w) js) = true ->
        run_pending Orig.run_func w js st
        = (Ok (reschedule (now w) js),
           snd (run_fetches Orig._fetch (orig_poll_calls w js) st)))
  /\ (forall js,
        forallb (fun f => negb (Fixed.is_ensure f)) (pending (now w) js) = true ->
        run_pending Fixed.run_func w js st
        = (Ok (reschedule (now w) js),
           snd (run_fetches Fixed._fetch (fixed_poll_calls w js) st)))
  /\ (forall polls js,
        never_due Orig.is_ensure polls js = true ->
        Orig._run polls js st
        = (Ok (loop_jobs polls js),
           snd (run_fetches Orig._fetch (orig_loop_calls polls js) st)))
  /\ (forall polls js,
        never_due Fixed.is_ensure polls js = true ->
        Fixed._run_scheduler polls js st
        = (Ok (loop_jobs polls js),
           snd (run_fetches Fixed._fetch (fixed_loop_calls polls js) st)))
  /\ (forall polls js e',
        fst (Orig._run polls js st) = Raise e' ->
        exists w' st0, In w' polls /\ fst (ensure_workbook w' st0) = Raise e')
  /\ (forall polls js e',
        fst (Fixed._run_scheduler polls js st) = Raise e' ->
        exists w' st0, In w' polls /\ fst (ensure_workbook w' st0) = Raise e').
Proof.
  repeat apply conj.
  - intros Hr. split; [apply orig_fetch_ok | apply orig_failed_fetch, Hr].
  - intros Hr. split; [apply fixed_fetch_ok | apply fixed_failed_fetch, Hr].
  - intros Hl. split;
      [apply orig_unknown_label_raises | apply fixed_unknown_label_raises];
      exact Hl.
  - intros js. apply orig_poll_run.
  - intros js. apply fixed_poll_run.
  - intros polls js. apply orig_loop_run.
  - intros polls js. apply fixed_loop_run.
  - intros polls js e'. apply orig_loop_raise.
  - intros polls js e'. apply fixed_loop_raise.
Qed.

Lemma failed_fetch_is_noop_witness :
  (fst (Orig._fetch w_absent "noon" false None st_aapl_100) = Ok tt
   /\ failed_fetch w_absent (ValueError "noon") st_aapl_100
        (snd (Orig._fetch w_absent "noon" false None st_aapl_100)))
  /\ Orig._run [w_no_history_0900] (orig_jobs (combine 0 8)) init_state
     = (Ok (loop_jobs [w_no_history_0900] (orig_jobs (combine 0 8))),
        snd (run_fetches Orig._fetch
               (orig_loop_calls [w_no_history_0900] (orig_jobs (combine 0 8)))
               init_state)).
Proof.
  split.
  - destruct (failed_fetch_is_noop w_absent "noon" false None st_aapl_100
                (ValueError "noon")) as [H _].
    apply H. vm_compute. reflexivity.
  - destruct (failed_fetch_is_noop w_absent "noon" false None init_state
                (ValueError "noon")) as (_ & _ & _ & _ & _ & H & _).
    apply H. vm_compute. reflexivity.
Defined.

(** C9, counterexample.  The record of day 0 holds 100.00 for AAPL.  A
    live fetch whose save fails while it writes raises inside [_fetch];
    the exception is caught and printed, but the cycle is not a no-op:
    the file of day 0 is torn, its record is lost, and the next fetch of
    that day cannot open the file. *)
Lemma broken_save_loses_record :
  let st1 := snd (Orig._fetch w_breaking "9:31 AM" false None st_aapl_100) in
  let st2 := snd (Fixed._fetch w_breaking "9:31 AM" false None st_aapl_100) in
  fst (Orig._fetch_body w_breaking "9:31 AM" false None st_aapl_100)
  = Raise IOError
  /\ fst (Fixed._fetch_body w_breaking "9:31 AM" false None st_aapl_100)
     = Raise IOError
  /\ cvalue (ws_get (record_of (files st_aapl_100) 0)
               (ticker_row 0) (slot_col 0)) = VNum (100 # 1)
  /\ tracebacks st1 = [IOError] /\ tracebacks st2 = [IOError]
  /\ record_of (files st1) 0 <> record_of (files st_aapl_100) 0
  /\ record_of (files st2) 0 <> record_of (files st_aapl_100) 0
  /\ cvalue (ws_get (record_of (files st1) 0) (ticker_row 0) (slot_col 0))
     = VNone
  /\ cvalue (ws_get (record_of (files st2) 0) (ticker_row 0) (slot_col 0))
     = VNone
  /\ bool_decide (0 ∈ torn st1) = true /\ bool_decide (0 ∈ torn st2) = true
  /\ tracebacks (snd (Fixed._fetch w_absent "10:00 AM" false None st2))
     = [IOError; BadZipFile].
Proof.
  cbv zeta.
  assert (H1 : cvalue (ws_get
                 (record_of
                    (files (snd (Orig._fetch w_breaking "9:31 AM" false None
                                   st_aapl_100))) 0)
                 (ticker_row 0) (slot_col 0)) = VNone)
    by (vm_compute; reflexivity).
  assert (H2 : cvalue (ws_get
                 (record_of
                    (files (snd (Fixed._fetch w_breaking "9:31 AM" false None
                                   st_aapl_100))) 0)
                 (ticker_row 0) (slot_col 0)) = VNone)
    by (vm_compute; reflexivity).
  assert (H0 : cvalue (ws_get (record_of (files st_aapl_100) 0)
                         (ticker_row 0) (slot_col 0)) = VNum (100 # 1))
    by (vm_compute; reflexivity).
  repeat split; try (vm_compute; reflexivity); try assumption.
  - intros E. rewrite E in H1. congruence.
  - intros E. rewrite E in H2. congruence.
Qed.

(** ** C4: one symbol fails *)

(** When every lookup answers, with a price or with nothing, the label is
    a slot and the disk takes the sheet, the fetch writes the prices that
    came and leaves the other cells as they were. *)
Lemma answered_prices_written (w : world) (label : string)
    (use_history : bool) (hist_dt : option Z) (st : state)
    (prices : list (option pyfloat)) (k : nat) :
  orig_prices w use_history hist_dt = Ok prices ->
  index_of label HOURS_values = Some k ->
  disk_ok w = true ->
  today w ∉ torn st ->
  let st' := snd (Orig._fetch w label use_history hist_dt st) in
  forall i sym, TICKERS !! i = Some sym ->
    let new :=
      cvalue (ws_get (record_of (files st') (today w))
                (ticker_row i) (slot_col k)) in
    match outcome (Orig._get w use_history hist_dt sym) with
    | Ok (Some (Fin q)) => new = VNum (round2 q)
    | Ok (Some NaN) => new = VNone
    | Ok None =>
        new = cvalue (saved_cell (ws_get (record_of (files st) (today w))
                                    (ticker_row i) (slot_col k)))
    | Raise _ => False
    end.
Proof.
  intros Hp Hk Hd Hout. cbv zeta. intros i sym Hs.
  destruct (orig_fetch_effect w label use_history hist_dt st)
    as [(prices' & k' & Hp' & _ & Hk' & _ & _ & Hf & _)
       |(e & _ & _ & [(Hc & _)|(_ & Hfail)])].
  - assert (prices' = prices) by congruence. assert (k' = k) by congruence.
    subst prices' k'. rewrite Hf, record_of_insert, decide_True by reflexivity.
    destruct (prices_of_symbol _ _ Hp i sym Hs) as (price & Ho & Hi).
    rewrite Ho, ws_get_saved, cvalue_saved_cell. unfold ticker_row, slot_col.
    rewrite merge_prices_get, Hi, merge_row_value.
    destruct price as [[q|]|]; try reflexivity.
    rewrite cvalue_saved_cell.
    destruct (cvalue (ws_get (record_of (files st) (today w)) (i + 2) (k + 2)));
      reflexivity.
  - congruence.
  - exfalso. unfold disk_ok in Hd.
    destruct Hfail as [(_ & _ & [[_ Hc]|[[_ Hc]|[_ Hc]]])|(_ & Hc & _)];
      try congruence; try (rewrite Hc in Hd; discriminate);
      try exact (Hout Hc).
Qed.

(** C4, the failing input.  A live fetch of the ten o'clock slot in which
    the lookup of AAPL raises and the 29 others answer 150.00.  With
    [src/DOW30_Excel_Dashboard.py] the exception leaves [_get], ends the
    batch and nothing is stored, not even AMGN's price; with
    [src/DOW30_Excel_Dashboard_fixed.py] the lookup of AAPL answers
    nothing, AMGN's price is stored and AAPL's cell is left empty. *)
Theorem orig_one_failure_drops_batch :
  let orig := snd (Orig._fetch w_one_failing "10:00 AM" false None init_state) in
  let fixed :=
    snd (Fixed._fetch w_one_failing "10:00 AM" false None init_state) in
  outcome (Orig._get w_one_failing false None "AMGN") = Ok (Some (Fin (150 # 1)))
  /\ tracebacks orig = [ProviderError "AAPL"]
  /\ files orig = ∅
  /\ cvalue (ws_get (record_of (files orig) 0) (ticker_row 1) (slot_col 1))
     = VNone
  /\ tracebacks fixed = []
  /\ cvalue (ws_get (record_of (files fixed) 0) (ticker_row 1) (slot_col 1))
     = VNum (150 # 1)
  /\ cvalue (ws_get (record_of (files fixed) 0) (ticker_row 0) (slot_col 1))
     = VNone.
Proof. vm_compute. repeat split; reflexivity. Qed.

(** ** C3: the historical lookup *)

Lemma last_close_some (rows : list (Z * pyfloat)) (t : Z) (c : pyfloat) :
  last rows = Some (t, c) -> last_close rows = Some c.
Proof. intros H. unfold last_close. rewrite H. reflexivity. Qed.

(** C3 (as amended).  In historical mode the lookup of a symbol first asks
    for the window from one minute before the slot's timestamp to one
    minute after it, two minutes wide.  When the window has samples, both
    files answer the close of the last one and ask for nothing more.  When
    it has none, [src/DOW30_Excel_Dashboard_fixed.py] answers nothing and
    asks for nothing more. *)
Theorem historical_lookup (w : world) (sym : string) (dt : Z) (st : state)
    (rows : list (Z * pyfloat)) :
  history (prov w) sym (dt - MINUTE) (dt + MINUTE) = Ok rows ->
  window_width (hist_window dt) = 2 * MINUTE
  /\ fst (hist_window dt) + MINUTE = dt
  /\ (forall t c, last rows = Some (t, c) ->
        fst (Orig._get w true (Some dt) sym st) = Ok (Some c)
        /\ calls (snd (Orig._get w true (Some dt) sym st))
           = calls st ++ [CHistory sym (dt - MINUTE) (dt + MINUTE)]
        /\ fst (Fixed._get w true (Some dt) sym st) = Ok (Some c)
        /\ calls (snd (Fixed._get w true (Some dt) sym st))
           = calls st ++ [CHistory sym (dt - MINUTE) (dt + MINUTE)])
  /\ (rows = [] ->
        fst (Fixed._get w true (Some dt) sym st) = Ok None
        /\ calls (snd (Fixed._get w true (Some dt) sym st))
           = calls st ++ [CHistory sym (dt - MINUTE) (dt + MINUTE)]).
Proof.
  intros Hh. split; [unfold window_width, hist_window; simpl; lia|].
  split; [unfold hist_window; simpl; lia|].
  split.
  - intros t c Hl. apply last_close_some in Hl.
    unfold Orig._get, Fixed._get, hist_window, yf_history, request, bind, ret.
    cbn [fst snd]. rewrite Hh, Hl. cbn. auto.
  - intros ->.
    unfold Fixed._get, hist_window, yf_history, request, bind, ret.
    cbn [fst snd]. rewrite Hh. cbn. auto.
Qed.

Lemma historical_lookup_witness :
  fst (Fixed._get w_absent true (Some (combine 0 10)) "AAPL" init_state)
  = Ok None
  /\ calls (snd (Fixed._get w_absent true (Some (combine 0 10)) "AAPL"
                   init_state))
     = calls init_state
       ++ [CHistory "AAPL" (combine 0 10 - MINUTE) (combine 0 10 + MINUTE)].
Proof.
  apply (historical_lookup w_absent "AAPL" (combine 0 10) init_state []
           eq_refl).
  reflexivity.
Defined.

(** C3, counterexample.  The window asked for is two minutes wide, not
    one: the bar of 9:59:00 is not within half a minute of 10:00:00, yet
    the lookup for the ten o'clock slot asks for it and answers its
    close. *)
Lemma window_is_two_minutes :
  let dt := combine 0 10 in
  window_width (hist_window dt) <> MINUTE
  /\ ~ (dt - 30 <= dt - 60)
  /\ calls (snd (Fixed._get w_bar_0959 true (Some dt) "AAPL" init_state))
     = [CHistory "AAPL" (dt - 60) (dt + 60)]
  /\ outcome (Fixed._get w_bar_0959 true (Some dt) "AAPL")
     = Ok (Some (Fin (995 # 10)))
  /\ outcome (Orig._get w_bar_0959 true (Some dt) "AAPL")
     = Ok (Some (Fin (995 # 10))).
Proof.
  cbv zeta. split; [vm_compute; discriminate|].
  split; [vm_compute; intros H; apply H; reflexivity|].
  vm_compute. repeat split; reflexivity.
Qed.

(** ** The loops of [__init__] *)









(** A start-up that takes no time registers every job at its instant. *)
Lemma orig_registered_at_once (w : world) :
  orig_registered w = orig_jobs (now w).
Proof. reflexivity. Qed.

Lemma fixed_registered_at_once (w : world) :
  fixed_registered w = fixed_jobs (now w).
Proof. reflexivity. Qed.

Lemma same_day_at_once (w : world) : same_day w.
Proof. intros slot. reflexivity. Qed.


(** ** The job table *)





(** ** Counting what a poll runs *)



















(** ** C7: start-up *)



(** A start-up two seconds before ten whose back-fill of the nine o'clock
    slot takes five seconds: the ten o'clock slot is not fetched, since
    [now] was read before ten, and its jobs, registered after ten, are
    first due at ten on the next day.  Started at 13:15 and taking no
    time, the jobs of the two o'clock slot are due at two on that day. *)
Lemma startup_across_the_hour :
  spec_backfill_slots (now (tl_across_ten AtNow)) = [(9, "9:31 AM")]
  /\ next_run_of (Orig.is_history "10:00 AM") (orig_registered tl_across_ten)
     = Some (combine 1 10)
  /\ next_run_of (Orig.is_live "10:00 AM") (orig_registered tl_across_ten)
     = Some (combine 1 10)
  /\ next_run_of (Fixed.is_history "10:00 AM") (fixed_registered tl_across_ten)
     = Some (combine 1 10)
  /\ next_run_of (Fixed.is_live "10:00 AM") (fixed_registered tl_across_ten)
     = Some (combine 1 10)
  /\ next_run_of (Orig.is_history "2:00 PM") (orig_registered w_start_1315)
     = Some (combine 0 14)
  /\ next_run_of (Fixed.is_live "2:00 PM") (fixed_registered w_start_1315)
     = Some (combine 0 14).
Proof. vm_compute. repeat split; reflexivity. Qed.

(** ** C2: how often a slot is fetched *)




(** ** C5: the date of the scheduled historical fetch *)

(** In [src/DOW30_Excel_Dashboard_fixed.py] the scheduled historical job
    does what start-up on that day does for the slot: a historical fetch
    for the slot's hour of the day it runs. *)
Lemma fixed_history_job_today (w : world) (lbl : string) (h : Z) :
  Fixed.run_func w (Fixed.DoHistory lbl h)
  = Fixed._fetch w lbl true (Some (combine (date_of (now w)) h)).
Proof. reflexivity. Qed.

(** In [src/DOW30_Excel_Dashboard.py] the job keeps the timestamp it was
    registered with, whatever the day it runs. *)
Lemma orig_history_job_captured (w : world) (lbl : string) (d : Z) :
  Orig.run_func w (Orig.DoHistory lbl d) = Orig._fetch w lbl true (Some d).
Proof. reflexivity. Qed.

(** C5, the failing input.  A process started at 08:00 on day 0 and
    polled on the hour until 09:00 of day 1.  At that poll the job of
    [src/DOW30_Excel_Dashboard.py] for the nine o'clock slot still carries
    09:00 of day 0, and the window it asks for is around that instant;
    the job of [src/DOW30_Excel_Dashboard_fixed.py] asks for the window
    around 09:00 of day 1. *)
Theorem orig_history_job_keeps_start_date :
  let orig :=
    bind (Orig.__init__ w_start_0800) (Orig._run polls_day0) init_state in
  let fixed :=
    bind (Fixed.__init__ w_start_0800) (Fixed._run_scheduler polls_day0)
      init_state in
  pending (now w_day1_0900) (jobs_of orig)
  = [Orig.DoHistory "9:31 AM" (combine 0 9); Orig.DoLive "9:31 AM"]
  /\ pending (now w_day1_0900) (jobs_of fixed)
     = [Fixed.DoHistory "9:31 AM" 9; Fixed.DoLive "9:31 AM"]
  /\ last (history_windows "AAPL"
             (calls (snd (run_pending Orig.run_func w_day1_0900 (jobs_of orig)
                            (snd orig)))))
     = Some (hist_window (combine 0 9))
  /\ last (history_windows "AAPL"
             (calls (snd (run_pending Fixed.run_func w_day1_0900 (jobs_of fixed)
                            (snd fixed)))))
     = Some (hist_window (combine 1 9))
  /\ hist_window (combine 0 9) <> hist_window (combine 1 9).
Proof. vm_compute. repeat split; try reflexivity. discriminate. Qed.

(** ** What the process can have stored *)

Lemma index_of_lt (label : string) (ls : list string) (k : nat) :
  index_of label ls = Some k -> (k < length ls)%nat.
Proof.
  revert k. induction ls as [|l ls IH]; intros k H; simpl in *.
  - discriminate.
  - destruct (String.eqb l label).
    + injection H as <-. lia.
    + destruct (index_of label ls) as [k'|]; [|discriminate].
      injection H as <-. specialize (IH k' eq_refl). lia.
Qed.

Lemma slot_index_lt (label : string) (k : nat) :
  index_of label HOURS_values = Some k -> (k < length HOURS)%nat.
Proof.
  intros H. apply index_of_lt in H. unfold HOURS_values in H.
  rewrite length_map in H. exact H.
Qed.

(** A provider that quotes no negative price gets no negative price out
    of a lookup. *)
Lemma orig_get_nonneg (w : world) (use_history : bool) (hist_dt : option Z)
    (sym : string) (q : Q) :
  provider_nonneg (prov w) ->
  outcome (Orig._get w use_history hist_dt sym) = Ok (Some (Fin q)) ->
  (0 <= q)%Q.
Proof.
  intros (Hh & Hi & Hq) Ho.
  destruct (orig_get_from _ _ _ _ _ Ho)
    as [(a & b & rows & t & Hr & Hin)|[Hinfo|(l & Hl & Hin)]]; eauto.
Qed.

Lemma fixed_get_nonneg (w : world) (use_history : bool) (hist_dt : option Z)
    (sym : string) (q : Q) :
  provider_nonneg (prov w) ->
  outcome (Fixed._get w use_history hist_dt sym) = Ok (Some (Fin q)) ->
  (0 <= q)%Q.
Proof.
  intros (Hh & Hi & Hq) Ho.
  destruct (fixed_get_from _ _ _ _ _ Ho)
    as [(a & b & rows & t & Hr & Hin)|[Hinfo|(l & Hl & Hin)]]; eauto.
Qed.

Lemma prices_satisfy (P : Q -> Prop) (f : string -> M (option pyfloat))
    (prices : list (option pyfloat)) :
  (forall sym (q : Q), outcome (f sym) = Ok (Some (Fin q)) -> P q) ->
  collect (map (fun sym => outcome (f sym)) TICKERS) = Ok prices ->
  Forall (fun price => forall q : Q, price = Some (Fin q) -> P q) prices.
Proof.
  intros HP Hc. apply Forall_forall. intros price Hin q ->.
  apply list_elem_of_lookup_1 in Hin as [i Hi].
  destruct (prices_lookup f prices Hc i _ Hi) as (sym & _ & Ho).
  eapply HP. exact Ho.
Qed.

Lemma record_of_merged (P : Q -> Prop) (fs : gmap Z worksheet) (d : Z) :
  store_merged P fs -> merged_sheet P (record_of fs d).
Proof.
  intros H. unfold record_of.
  destruct (fs !! d) as [ws|] eqn:E; simpl; [eapply H; exact E|].
  apply merged_new.
Qed.

Lemma store_merged_insert (P : Q -> Prop) (fs : gmap Z worksheet) (d : Z)
    (ws : worksheet) :
  store_merged P fs -> merged_sheet P ws -> store_merged P (<[d := ws]> fs).
Proof.
  intros Hfs Hws d' ws'. rewrite lookup_insert.
  case_decide; [intros [= <-]; exact Hws | apply Hfs].
Qed.

Lemma store_merged_delete (P : Q -> Prop) (fs : gmap Z worksheet) (d : Z) :
  store_merged P fs -> store_merged P (delete d fs).
Proof.
  intros Hfs d' ws' H. apply lookup_delete_Some in H as [_ H].
  eapply Hfs. exact H.
Qed.

Lemma store_kept_merged (P : Q -> Prop) (w : world) (fs fs' : gmap Z worksheet) :
  store_kept w fs fs' -> store_merged P fs -> store_merged P fs'.
Proof.
  intros [->|[_ ->]] H; [exact H|].
  apply store_merged_insert; [exact H | apply merged_new].
Qed.

Lemma ensure_keeps_merged (P : Q -> Prop) (w : world) (st : state) :
  store_merged P (files st) ->
  store_merged P (files (snd (ensure_workbook w st))).
Proof.
  intros H. pose proof (ensure_workbook_spec w st) as He.
  destruct (ensure_workbook w st) as [[[fpath ws]|e] st1]; cbn [snd].
  - destruct He as (_ & -> & -> & _).
    apply store_merged_insert; [exact H | apply record_of_merged; exact H].
  - destruct He as (_ & _ & _ & [(-> & _)|(_ & _ & _ & Hf & _)]);
      [exact H|].
    rewrite Hf. apply store_merged_delete. exact H.
Qed.

(** A fetch that gathered prices whose numbers satisfy [P] keeps the
    store one of sheets produced by merges of such prices. *)
Lemma fetch_effect_keeps_merged (P : Q -> Prop) (w : world) (label : string)
    (gathered : result (list (option pyfloat))) (st st' : state) :
  fetch_effect w label gathered st st' ->
  (forall prices, gathered = Ok prices ->
     Forall (fun price => forall q : Q, price = Some (Fin q) -> P q) prices) ->
  store_merged P (files st) -> store_merged P (files st').
Proof.
  intros [(prices & k & Hg & _ & Hk & _ & _ & Hf & _)
         |(e & _ & _ & [(_ & Hf & _)|(_ & Hfail)])] HP H.
  - rewrite Hf. apply store_merged_insert; [exact H|].
    apply merged_step;
      [apply record_of_merged; exact H | apply slot_index_lt in Hk; exact Hk|].
    apply HP. exact Hg.
  - rewrite Hf. exact H.
  - destruct Hfail as [(Hkept & _)|(_ & _ & Hf & _)].
    + eapply store_kept_merged; eassumption.
    + rewrite Hf. apply store_merged_delete. exact H.
Qed.

Lemma orig_fetch_keeps_merged (P : Q -> Prop) (w : world) (label : string)
    (use_history : bool) (hist_dt : option Z) (st : state) :
  (forall sym (q : Q),
      outcome (Orig._get w use_history hist_dt sym) = Ok (Some (Fin q)) ->
      P q) ->
  store_merged P (files st) ->
  store_merged P (files (snd (Orig._fetch w label use_history hist_dt st))).
Proof.
  intros HP H.
  eapply fetch_effect_keeps_merged; [apply orig_fetch_effect| |exact H].
  intros prices Hp. eapply prices_satisfy; [exact HP | exact Hp].
Qed.

Lemma fixed_fetch_keeps_merged (P : Q -> Prop) (w : world) (label : string)
    (use_history : bool) (hist_dt : option Z) (st : state) :
  (forall dt sym (q : Q),
      outcome (Fixed._get w use_history dt sym) = Ok (Some (Fin q)) -> P q) ->
  store_merged P (files st) ->
  store_merged P (files (snd (Fixed._fetch w label use_history hist_dt st))).
Proof.
  intros HP H.
  eapply fetch_effect_keeps_merged; [apply fixed_fetch_effect| |exact H].
  intros prices Hp. apply fixed_gathered_prices in Hp as (dt & _ & Hp).
  eapply prices_satisfy; [apply (HP dt) | exact Hp].
Qed.

(** Every sheet the process has stored was produced by merges from a new
    sheet; out of prices that are not negative when the providers quote
    none. *)
Lemma reachable_store_merged (W : world -> Prop) (st : state) :
  reachable W st -> store_merged (fun _ => True) (files st).
Proof.
  induction 1 as [|w st _ _ IH|w label uh dt st _ _ IH|w label uh dt st _ _ IH].
  - intros d ws. cbn. rewrite lookup_empty. discriminate.
  - apply ensure_keeps_merged. exact IH.
  - apply orig_fetch_keeps_merged; auto.
  - apply fixed_fetch_keeps_merged; auto.
Qed.

Lemma reachable_store_nonneg (W : world -> Prop) (st : state) :
  (forall w, W w -> provider_nonneg (prov w)) ->
  reachable W st -> store_merged (fun q => (0 <= q)%Q) (files st).
Proof.
  intros HW.
  induction 1 as [|w st Hw _ IH|w label uh dt st Hw _ IH
                  |w label uh dt st Hw _ IH].
  - intros d ws. cbn. rewrite lookup_empty. discriminate.
  - apply ensure_keeps_merged. exact IH.
  - apply orig_fetch_keeps_merged; [|exact IH].
    intros sym q. apply orig_get_nonneg. auto.
  - apply fixed_fetch_keeps_merged; [|exact IH].
    intros dt' sym q. apply fixed_get_nonneg. auto.
Qed.

(** ** C10: the first slot *)

(** C10.  In every state the process can reach, on the record of every
    date, a merge into the first slot column, the one of "9:31 AM" next to
    the tickers, gives no cell a marker whatever the prices, and the cells
    of that column carry no marker. *)
Theorem first_slot_never_marked (W : world -> Prop) (st : state) (d : Z) :
  reachable W st ->
  let ws := record_of (files st) d in
  index_of "9:31 AM" HOURS_values = Some 0%nat
  /\ (forall prices r c,
        cmark (ws_get (merge_prices (slot_col 0) ws prices) r c)
        = cmark (ws_get ws r c))
  /\ (forall prices r,
        cmark (ws_get (merge_prices (slot_col 0) ws prices) r (slot_col 0))
        = Unmarked)
  /\ (forall r, cmark (ws_get ws r (slot_col 0)) = Unmarked).
Proof.
  intros Hst. cbv zeta. split; [reflexivity|].
  apply (sheet_first_slot_never_marked (fun _ => True)).
  apply record_of_merged. eapply reachable_store_merged. exact Hst.
Qed.

Lemma st_first_slot_reachable :
  reachable (fun w => w = w_one_failing) st_first_slot.
Proof. apply reach_fixed; [reflexivity | apply reach_start]. Qed.

Lemma first_slot_never_marked_witness :
  cmark (ws_get (record_of (files st_first_slot) 0) (ticker_row 1) (slot_col 0))
  = Unmarked.
Proof.
  destruct (first_slot_never_marked _ st_first_slot 0 st_first_slot_reachable)
    as (_ & _ & _ & H).
  apply H.
Defined.

(** ** C8: what a price cell holds *)

Lemma one_failing_provider_nonneg : provider_nonneg one_failing_provider.
Proof.
  split; [|split]; simpl.
  - intros sym a b rows t c [= <-] [].
  - intros sym q. destruct (String.eqb sym "AAPL"); [discriminate|].
    intros [= <-]. unfold Qle. simpl. lia.
  - discriminate.
Qed.

(** C8 (as amended).  In every state the process can reach with providers
    that quote no negative price, each price cell of each record is empty
    or holds a number of two decimals that is not negative.  A merge
    writes a price rounded to two decimals, within half a hundredth of it,
    and writes nothing for an absent price: the cell keeps what it held,
    so an empty cell stays empty and does not become zero. *)
Theorem stored_values_rounded (W : world -> Prop) (st : state) (d : Z) :
  (forall w, W w -> provider_nonneg (prov w)) ->
  reachable W st ->
  let ws := record_of (files st) d in
  (forall r c, (2 <= r)%nat -> (2 <= c)%nat ->
      price_cell_ok (cvalue (ws_get ws r c)))
  /\ (forall k prices i q,
        prices !! i = Some (Some (Fin q)) ->
        cvalue (ws_get (merge_prices (slot_col k) ws prices)
                  (ticker_row i) (slot_col k)) = VNum (round2 q)
        /\ (Qabs (round2 q - q) <= 1 # 200)%Q)
  /\ (forall k prices i,
        prices !! i = Some None ->
        cvalue (ws_get (merge_prices (slot_col k) ws prices)
                  (ticker_row i) (slot_col k))
        = cvalue (ws_get ws (ticker_row i) (slot_col k))).
Proof.
  intros HW Hst. cbv zeta. apply sheet_values_rounded.
  apply record_of_merged. eapply reachable_store_nonneg; eassumption.
Qed.

Lemma stored_values_rounded_witness :
  price_cell_ok
    (cvalue (ws_get (record_of (files st_first_slot) 0)
               (ticker_row 1) (slot_col 0))).
Proof.
  assert (HW : forall w, w = w_one_failing -> provider_nonneg (prov w))
    by (intros w ->; exact one_failing_provider_nonneg).
  destruct (stored_values_rounded _ st_first_slot 0 HW st_first_slot_reachable)
    as (H & _).
  apply H; unfold ticker_row, slot_col; lia.
Defined.

(** C8, counterexample.  Nothing in either file looks at the sign of a
    price: with a provider that quotes -1.00, a live fetch stores -1.00. *)
Lemma negative_price_stored :
  let orig := snd (Orig._fetch w_negative "9:31 AM" false None init_state) in
  let fixed := snd (Fixed._fetch w_negative "9:31 AM" false None init_state) in
  cvalue (ws_get (record_of (files orig) 0) (ticker_row 0) (slot_col 0))
  = VNum (-1 # 1)
  /\ cvalue (ws_get (record_of (files fixed) 0) (ticker_row 0) (slot_col 0))
     = VNum (-1 # 1)
  /\ ~ price_cell_ok
        (cvalue (ws_get (record_of (files orig) 0)
                   (ticker_row 0) (slot_col 0)))
  /\ ~ price_cell_ok
        (cvalue (ws_get (record_of (files fixed) 0)
                   (ticker_row 0) (slot_col 0))).
Proof.
  cbv zeta.
  assert (Ho : cvalue (ws_get (record_of (files (snd (Orig._fetch w_negative
                 "9:31 AM" false None init_state))) 0)
                 (ticker_row 0) (slot_col 0)) = VNum (-1 # 1))
    by (vm_compute; reflexivity).
  assert (Hf : cvalue (ws_get (record_of (files (snd (Fixed._fetch w_negative
                 "9:31 AM" false None init_state))) 0)
                 (ticker_row 0) (slot_col 0)) = VNum (-1 # 1))
    by (vm_compute; reflexivity).
  rewrite Ho, Hf. repeat split; simpl; intros [_ Hle]; revert Hle;
    unfold Qle; simpl; lia.
Qed.

(** ** The lookups that raise *)

(** In [src/DOW30_Excel_Dashboard.py], when the lookup of any symbol
    raises, the fetch stores nothing and prints that exception. *)
Lemma orig_raise_drops_batch (w : world) (label : string)
    (use_history : bool) (hist_dt : option Z) (st : state) (e : exn) :
  orig_prices w use_history hist_dt = Raise e ->
  let st' := snd (Orig._fetch w label use_history hist_dt st) in
  files st' = files st
  /\ torn st' = torn st
  /\ tracebacks st' = tracebacks st ++ [e]
  /\ emitted st' = emitted st.
Proof.
  intros Hp. cbv zeta.
  destruct (orig_fetch_effect w label use_history hist_dt st)
    as [(prices & k & Hg & _)
       |(e' & Ht & He & [(Hg & Hf & Htorn)|((prices & Hg) & _)])];
    try congruence.
  assert (e' = e) by congruence. subst e'. auto.
Qed.

(** In [src/DOW30_Excel_Dashboard_fixed.py] a failure of the fallback
    request is caught in [_get]: the lookup answers nothing. *)
Lemma fixed_fallback_caught (w : world) (sym : string) (e : exn) :
  info_price (prov w) sym = Ok None ->
  quote (prov w) sym = Raise e ->
  outcome (Fixed._get w false None sym) = Ok None.
Proof.
  intros Hi Hq.
  unfold outcome, Fixed._get, yf_info, requests_get, request, bind,
    try_except, ret.
  cbn [fst snd]. rewrite Hi. cbn. rewrite Hq. reflexivity.
Qed.

(** The same failure leaves [_get] of [src/DOW30_Excel_Dashboard.py]. *)
Lemma orig_fallback_raises (w : world) (sym : string) (e : exn) :
  info_price (prov w) sym = Ok None ->
  quote (prov w) sym = Raise e ->
  outcome (Orig._get w false None sym) = Raise e.
Proof.
  intros Hi Hq.
  unfold outcome, Orig._get, Orig.live_quote, yf_info, requests_get, request,
    bind, ret.
  cbn [fst snd]. rewrite Hi. cbn. rewrite Hq. reflexivity.
Qed.

(** An exception of [history] or of [info] leaves [_get] in both files. *)
Lemma primary_failure_raises (w : world) (sym : string) (dt : Z) (e : exn) :
  (history (prov w) sym (dt - MINUTE) (dt + MINUTE) = Raise e ->
   outcome (Orig._get w true (Some dt) sym) = Raise e
   /\ outcome (Fixed._get w true (Some dt) sym) = Raise e)
  /\ (info_price (prov w) sym = Raise e ->
      outcome (Orig._get w false None sym) = Raise e
      /\ outcome (Fixed._get w false None sym) = Raise e).
Proof.
  split; intros H;
    unfold outcome, Orig._get, Fixed._get, Orig.live_quote, hist_window,
      yf_history, yf_info, request, bind;
    cbn [fst snd]; rewrite H; auto.
Qed.

(** On an empty window [_get] of [src/DOW30_Excel_Dashboard.py] goes on
    to the live quote. *)
Lemma orig_empty_window_asks_live (w : world) (sym : string) (dt : Z)
    (p : pyfloat) (st : state) :
  history (prov w) sym (dt - MINUTE) (dt + MINUTE) = Ok [] ->
  info_price (prov w) sym = Ok (Some p) ->
  calls (snd (Orig._get w true (Some dt) sym st))
  = calls st ++ [CHistory sym (dt - MINUTE) (dt + MINUTE); CInfo sym]
  /\ fst (Orig._get w true (Some dt) sym st) = Ok (float_if_truthy (Some p)).
Proof.
  intros Hh Hi.
  unfold Orig._get, Orig.live_quote, hist_window, yf_history, yf_info,
    request, bind, ret.
  cbn [fst snd]. rewrite Hh. cbn -[float_if_truthy]. rewrite Hi.
  cbn -[float_if_truthy]. rewrite <- app_assoc. auto.
Qed.

(** The midnight job is [ensure_workbook] itself, not under any [try]:
    when the disk refuses the new sheet its exception leaves
    [run_pending] and ends the loop. *)
Lemma midnight_job_can_end_loop :
  fst (Orig._run [World (combine 1 0) absent_provider false]
         (orig_jobs (combine 0 23)) init_state) = Raise IOError
  /\ fst (Fixed._run_scheduler [World (combine 1 0) absent_provider false]
            (fixed_jobs (combine 0 23)) init_state) = Raise IOError.
Proof. vm_compute. split; reflexivity. Qed.

